(** * newsRAG.py: a shallow embedding of the news pipeline

    The script is a linear pipeline: API keys, query, news search, article
    extraction (at most five successes), prompt assembly, chat completion,
    display. Every function of [newsRAG.py] is embedded under its own name.

    Conventions of the embedding:
    - a Python [str] is a [string]; each [ascii] stands for one code point
      below 256, and [isspace] is Python's [str.isspace] on that range;
    - a dict with string keys is a [gmap string _]; [d[k]] is [getitem]
      (raising [KeyError]), [d.get(k)] is [dict_get];
    - printing, reading standard input, network calls, raised exceptions and
      [sys.exit] are threaded through the monad [M]: the state carries what
      was written to standard output, the unread input lines and the log of
      network calls; the outside world is an [Env], answering each request
      from the request itself and the calls made so far. *)

From Stdlib Require Import ZArith QArith Ascii.
From stdpp Require Import gmap strings list fin_maps pretty.

Local Open Scope Z_scope.
Local Open Scope nat_scope.
Local Open Scope stdpp_scope.

(** ** Strings *)

(** [str.isspace] on the code points below 256: TAB..CR, FS..US, space,
    NEL (0x85) and NBSP (0xA0). *)
Definition isspace (c : ascii) : bool :=
  let n := nat_of_ascii c in
  (Nat.leb 9 n && Nat.leb n 13) || (Nat.leb 28 n && Nat.leb n 32)
  || Nat.eqb n 133 || Nat.eqb n 160.

Fixpoint lstrip (s : string) : string :=
  match s with
  | EmptyString => EmptyString
  | String c r => if isspace c then lstrip r else s
  end.

Fixpoint rstrip (s : string) : string :=
  match s with
  | EmptyString => EmptyString
  | String c r =>
      match rstrip r with
      | EmptyString => if isspace c then EmptyString else String c EmptyString
      | r' => String c r'
      end
  end.

(** The line feed, written [\n] in the script's literals. *)
Definition LF : string := String (ascii_of_nat 10) EmptyString.

(** [s.strip()]: leading and trailing whitespace removed. *)
Definition strip (s : string) : string := rstrip (lstrip s).

(** Truthiness of a [str]: [if s] holds for a non-empty one. *)
Definition truthy (s : string) : bool :=
  match s with EmptyString => false | String _ _ => true end.

(** ** Values, exceptions, outcomes *)

(** The dynamically typed values of the script: a [str], or [None] where
    [dict.get] or [os.getenv] found no entry. *)
Inductive PyVal : Type :=
  | PyNone
  | PyStr (s : string).

#[global] Instance PyVal_eq_dec : EqDecision PyVal.
Proof. solve_decision. Defined.

(** [str(v)], as an f-string formats it. *)
Definition py_str (v : PyVal) : string :=
  match v with
  | PyNone => "None"
  | PyStr s => s
  end.

(** Exceptions below [Exception]; [Exception msg] stands for any class
    the script does not single out. *)
Inductive PyExn : Type :=
  | AttributeError (msg : string)
  | KeyError (key : string)
  | IndexError (msg : string)
  | EOFError (msg : string)
  | Exception (msg : string).

(** [str(e)]; a [KeyError] shows the repr of its key. *)
Definition exn_str (e : PyExn) : string :=
  match e with
  | AttributeError msg | IndexError msg | EOFError msg | Exception msg => msg
  | KeyError key => "'" +:+ key +:+ "'"
  end.

(** How a call ends: it returns, raises, or [sys.exit(code)] unwinds the
    process ([SystemExit] is not an [Exception], so no handler of the script
    stops it). *)
Inductive Outcome (A : Type) : Type :=
  | Return (a : A)
  | Raise (e : PyExn)
  | SysExit (code : Z).
Arguments Return {A} a.
Arguments Raise {A} e.
Arguments SysExit {A} code.

(** ** The outside world *)

Abbreviation Article := (gmap string PyVal).

(** The request parameters of the news search (the dict [params]). *)
Record SearchParams : Type := {
  sp_engine : string;
  sp_q : string;
  sp_tbm : string;
  sp_api_key : PyVal;
  sp_num : Z
}.

(** The chat-completion request, with the key set in [openai.api_key]. *)
Record ChatRequest : Type := {
  cr_api_key : PyVal;
  cr_model : string;
  cr_messages : list (string * string);
  cr_max_tokens : Z;
  cr_temperature : Q
}.

Inductive Event : Type :=
  | EvSearch (p : SearchParams)
  | EvFetch (url : PyVal)
  | EvChat (r : ChatRequest).

(** The search response: of the result mapping only the [news_results]
    entry is read; it may be missing. *)
Inductive ApiOutcome : Type :=
  | ApiRaised (e : PyExn)
  | ApiDict (news_results : option (list (gmap string PyVal))).

(** [Article(url)], [download()], [parse()], then [article.text]. *)
Inductive FetchOutcome : Type :=
  | FetchRaised (e : PyExn)
  | FetchText (text : string).

Record Choice : Type := { message_content : PyVal }.

Inductive ChatOutcome : Type :=
  | ChatRaised (e : PyExn)
  | ChatResponse (choices : list Choice).

Record Env : Type := {
  environ : gmap string string;  (* os.environ *)
  google_search : list Event -> SearchParams -> ApiOutcome;
  newspaper : list Event -> PyVal -> FetchOutcome;
  openai_ChatCompletion : bool;  (* hasattr(openai, 'ChatCompletion') *)
  chat_completion : list Event -> ChatRequest -> ChatOutcome
}.

Record State : Type := {
  stdout : list string;
  stdin : list string;
  net : list Event
}.

(** ** The monad *)

Definition M (A : Type) : Type := State -> Outcome A * State.

Definition ret {A} (a : A) : M A := fun s => (Return a, s).

Definition bind {A B} (m : M A) (k : A -> M B) : M B :=
  fun s =>
    match m s with
    | (Return a, s') => k a s'
    | (Raise e, s') => (Raise e, s')
    | (SysExit c, s') => (SysExit c, s')
    end.

Notation "x <- m ;; k" := (bind m (fun x => k))
  (at level 100, m at next level, right associativity).
Notation "m ;;; k" := (bind m (fun _ => k))
  (at level 100, right associativity).

Definition raise {A} (e : PyExn) : M A := fun s => (Raise e, s).

Definition sys_exit {A} (code : Z) : M A := fun s => (SysExit code, s).

(** [try: body / except Exception as e: handler e]. *)
Definition try_except {A} (body : M A) (handler : PyExn -> M A) : M A :=
  fun s =>
    match body s with
    | (Raise e, s') => handler e s'
    | r => r
    end.

(** A pure computation that may raise, run in [M]. *)
Definition lift {A} (o : Outcome A) : M A := fun s => (o, s).

(** [print(text)]. *)
Definition print (text : string) : M unit :=
  fun s =>
    (Return tt,
     {| stdout := stdout s ++ [text +:+ LF]; stdin := stdin s; net := net s |}).

(** [input(prompt)]: the prompt is written, one line is read. *)
Definition input (prompt : string) : M string :=
  fun s =>
    let s1 := {| stdout := stdout s ++ [prompt]; stdin := stdin s; net := net s |} in
    match stdin s with
    | [] => (Raise (EOFError "EOF when reading a line"), s1)
    | line :: rest =>
        (Return line, {| stdout := stdout s1; stdin := rest; net := net s1 |})
    end.

(** A network call: logged, then answered by the world from the log so far. *)
Definition call {R} (ev : Event) (answer : list Event -> R) : M R :=
  fun s =>
    (Return (answer (net s)),
     {| stdout := stdout s; stdin := stdin s; net := net s ++ [ev] |}).

(** [d[key]]. *)
Definition getitem (d : Article) (key : string) : Outcome PyVal :=
  match d !! key with
  | Some v => Return v
  | None => Raise (KeyError key)
  end.

(** [d.get(key)]. *)
Definition dict_get (d : gmap string PyVal) (key : string) : PyVal :=
  default PyNone (d !! key).

(** [not v] for a value that is [None] or a [str]. *)
Definition py_not (v : PyVal) : bool :=
  match v with
  | PyNone => true
  | PyStr s => negb (truthy s)
  end.

(** Sequencing of pure computations that may raise. *)
Definition obind {A B} (o : Outcome A) (k : A -> Outcome B) : Outcome B :=
  match o with
  | Return a => k a
  | Raise e => Raise e
  | SysExit c => SysExit c
  end.

(** ** The script *)

Definition placeholder : string := "Content could not be retrieved.".

Definition trailing_instruction : string :=
  "Please provide your analysis based on the above articles. Focus on the potential reasons behind a recent change in stock price.".

(** [prepare_prompt], lines 123-126: the body of the [for] loop, [idx]
    counting from 1. *)
Fixpoint prepare_prompt_loop (idx : nat) (articles : list Article)
    (prompt : string) : Outcome string :=
  match articles with
  | [] => Return prompt
  | article :: rest =>
      let prompt := prompt +:+ ("Article " +:+ pretty idx +:+ ":" +:+ LF) in
      obind (getitem article "title") (fun title =>
      let prompt := prompt +:+ ("Title: " +:+ py_str title +:+ LF) in
      obind (getitem article "full_text") (fun full_text =>
      let prompt := prompt +:+ ("Content: " +:+ py_str full_text +:+ LF +:+ LF) in
      prepare_prompt_loop (S idx) rest prompt))
  end.

Definition prepare_prompt (articles : list Article) : Outcome string :=
  let num_articles := length articles in
  let prompt := "Here are " +:+ pretty num_articles +:+ " news articles:" +:+ LF +:+ LF in
  obind (prepare_prompt_loop 1 articles prompt) (fun prompt =>
  Return (prompt +:+ trailing_instruction)).

Section Script.

Variable env : Env.

(** [os.getenv(name)]. *)
Definition os_getenv (name : string) : PyVal :=
  match environ env !! name with
  | Some v => PyStr v
  | None => PyNone
  end.

Definition get_api_keys : M (PyVal * PyVal) :=
  let serpapi_key := os_getenv "SERPAPI_API_KEY" in
  let openai_api_key := os_getenv "OPENAI_API_KEY" in
  serpapi_key <-
    (if py_not serpapi_key
     then line <- input "Enter your SerpApi API Key: " ;; ret (PyStr (strip line))
     else ret serpapi_key) ;;
  openai_api_key <-
    (if py_not openai_api_key
     then line <- input "Enter your OpenAI API Key: " ;; ret (PyStr (strip line))
     else ret openai_api_key) ;;
  ret (serpapi_key, openai_api_key).

Definition get_user_query : M string :=
  line <- input "Enter your search query for Google News: " ;;
  let query := strip line in
  if negb (truthy query)
  then print "Search query cannot be empty." ;;; sys_exit 1
  else ret query.

(** [GoogleSearch(params).get_dict()]. *)
Definition GoogleSearch_get_dict (params : SearchParams)
    : M (option (list (gmap string PyVal))) :=
  results <- call (EvSearch params) (fun h => google_search env h params) ;;
  match results with
  | ApiRaised e => raise e
  | ApiDict news_results => ret news_results
  end.

Definition article_info (article : gmap string PyVal) : Article :=
  <["title" := dict_get article "title"]>
  (<["link" := dict_get article "link"]>
  (<["source" := dict_get article "source"]>
  (<["published_date" := dict_get article "published"]>
  (<["snippet" := dict_get article "snippet"]> ∅)))).

Definition get_google_news_articles (query : string) (serpapi_key : PyVal)
    (num_articles : Z) : M (list Article) :=
  let params :=
    {| sp_engine := "google"; sp_q := query; sp_tbm := "nws";
       sp_api_key := serpapi_key; sp_num := num_articles |} in
  try_except
    (results <- GoogleSearch_get_dict params ;;
     let news_results := default [] results in
     match news_results with
     | [] =>
         print "No news articles found for the given query." ;;;
         sys_exit 1
     | _ =>
         let articles :=
           fold_left (fun articles article => articles ++ [article_info article])
             news_results [] in
         ret articles
     end)
    (fun e =>
       print ("An error occurred while fetching articles: " +:+ exn_str e) ;;;
       sys_exit 1).

(** [Article(url)], [download()], [parse()], [article.text]. *)
Definition Article_text (url : PyVal) : M string :=
  page <- call (EvFetch url) (fun h => newspaper env h url) ;;
  match page with
  | FetchRaised e => raise e
  | FetchText text => ret text
  end.

Definition extract_article_text (url : PyVal) : M (bool * string) :=
  try_except
    (article_text <- Article_text url ;;
     let text := strip article_text in
     if truthy text
     then ret (true, text)
     else ret (false, placeholder))
    (fun e =>
       print ("Failed to extract text from " +:+ py_str url +:+ ": " +:+ exn_str e) ;;;
       ret (false, placeholder)).

(** [openai.ChatCompletion.create(...)] under the key in [openai.api_key].
    The attribute [openai.ChatCompletion] is looked up first: in a client
    library that does not have it, the lookup raises [AttributeError] and
    nothing is sent. Otherwise the request is made. *)
Definition ChatCompletion_create (request : ChatRequest) : M (list Choice) :=
  if openai_ChatCompletion env
  then
    response <- call (EvChat request) (fun h => chat_completion env h request) ;;
    match response with
    | ChatRaised e => raise e
    | ChatResponse choices => ret choices
    end
  else raise (AttributeError "module 'openai' has no attribute 'ChatCompletion'").

Definition send_to_gpt (prompt : string) (openai_api_key : PyVal) : M string :=
  try_except
    (choices <-
       ChatCompletion_create
         {| cr_api_key := openai_api_key;
            cr_model := "gpt-4";
            cr_messages :=
              [("system", "You are a helpful assistant."); ("user", prompt)];
            cr_max_tokens := 1500;
            cr_temperature := 7 # 10 |} ;;
     match choices with
     | [] => raise (IndexError "list index out of range")
     | choice :: _ =>
         match message_content choice with
         | PyStr content => ret (strip content)
         | PyNone =>
             raise (AttributeError "'NoneType' object has no attribute 'strip'")
         end
     end)
    (fun e =>
       match e with
       | AttributeError _ =>
           print ("AttributeError: " +:+ exn_str e) ;;;
           print "Please ensure the 'openai' package is up-to-date." ;;;
           sys_exit 1
       | _ =>
           print ("An error occurred while communicating with OpenAI API: "
                  +:+ exn_str e) ;;;
           sys_exit 1
       end).

Definition display_gpt_response (response : string) : M unit :=
  print (LF +:+ "--- GPT-4 Response ---" +:+ LF) ;;;
  print response ;;;
  print (LF +:+ "-----------------------" +:+ LF).

(** [main], lines 184-194: the [for] loop over the candidates, [idx]
    counting from 1; [successful_articles] is the list built so far. *)
Fixpoint extraction_loop (idx : nat) (articles : list Article)
    (successful_articles : list Article) : M (list Article) :=
  match articles with
  | [] => ret successful_articles
  | article :: rest =>
      if Nat.leb 5 (length successful_articles)
      then ret successful_articles
      else
        link <- lift (getitem article "link") ;;
        print ("Attempting to extract content from Article " +:+ pretty idx
               +:+ ": " +:+ py_str link) ;;;
        link <- lift (getitem article "link") ;;
        r <- extract_article_text link ;;
        let success := fst r in
        let full_text := snd r in
        if success
        then
          print ("Successfully extracted Article " +:+ pretty idx) ;;;
          let article := <["full_text" := PyStr full_text]> article in
          extraction_loop (S idx) rest (successful_articles ++ [article])
        else
          print ("Failed to extract Article " +:+ pretty idx +:+ ", skipping.") ;;;
          extraction_loop (S idx) rest successful_articles
  end.

(** [main], lines 196-202: what is reported once the loop is over. *)
Definition report_extraction (successful_articles : list Article) : M unit :=
  match successful_articles with
  | [] =>
      print "No articles were successfully retrieved. Exiting." ;;;
      sys_exit 1
  | _ =>
      if Nat.ltb (length successful_articles) 5
      then print (LF +:+ "Only " +:+ pretty (length successful_articles)
                  +:+ " articles were successfully retrieved." +:+ LF)
      else print (LF +:+ "Successfully retrieved 5 articles." +:+ LF)
  end.

Definition main : M unit :=
  keys <- get_api_keys ;;
  let serpapi_key := fst keys in
  let openai_api_key := snd keys in
  query <- get_user_query ;;
  print (LF +:+ "Fetching up to 10 news articles..." +:+ LF) ;;;
  articles <- get_google_news_articles query serpapi_key 10 ;;
  successful_articles <- extraction_loop 1 articles [] ;;
  report_extraction successful_articles ;;;
  prompt <- lift (prepare_prompt successful_articles) ;;
  print ("Sending data to GPT-4 for processing..." +:+ LF) ;;;
  gpt_response <- send_to_gpt prompt openai_api_key ;;
  display_gpt_response gpt_response.

End Script.

(** ** What the loop is measured against

    The candidates are tried one after the other, so the call log at the
    turn of the [i]-th candidate is the log at loop entry followed by the
    fetches of the candidates before it. [attempts] lists, per candidate,
    what an extraction at its turn yields. *)

Section LoopOutcomes.

Variable env : Env.

(** The text a successful extraction of [url] returns when the log is [h];
    [None] when the extraction fails there. *)
Definition extraction_at (h : list Event) (url : PyVal) : option string :=
  match newspaper env h url with
  | FetchRaised _ => None
  | FetchText raw => if truthy (strip raw) then Some (strip raw) else None
  end.

Fixpoint attempts (h : list Event) (articles : list Article)
    : list (option string) :=
  match articles with
  | [] => []
  | article :: rest =>
      let url := dict_get article "link" in
      extraction_at h url :: attempts (h ++ [EvFetch url]) rest
  end.

End LoopOutcomes.

(** How many successes a list of attempt results holds. *)
Fixpoint successes (os : list (option string)) : nat :=
  match os with
  | [] => 0
  | Some _ :: rest => S (successes rest)
  | None :: rest => successes rest
  end.

(** How many candidates are tried until [need] successes are reached. *)
Fixpoint examined (need : nat) (os : list (option string)) : nat :=
  match need, os with
  | 0, _ => 0
  | _, [] => 0
  | S n, Some _ :: rest => S (examined n rest)
  | S _, None :: rest => S (examined need rest)
  end.

(** The candidates whose attempt succeeded, each with its text attached. *)
Fixpoint kept (os : list (option string)) (articles : list Article)
    : list Article :=
  match os, articles with
  | Some text :: os', article :: rest =>
      <["full_text" := PyStr text]> article :: kept os' rest
  | None :: os', _ :: rest => kept os' rest
  | _, _ => []
  end.

Definition fetch_of (article : Article) : Event :=
  EvFetch (dict_get article "link").

(** One block of the prompt, for the article at position [i] (from 0). *)
Definition article_block (i : nat) (article : Article) : string :=
  "Article " +:+ pretty (S i) +:+ ":" +:+ LF
  +:+ "Title: " +:+ py_str (dict_get article "title") +:+ LF
  +:+ "Content: " +:+ py_str (dict_get article "full_text") +:+ LF +:+ LF.

Definition prompt_header (count : nat) : string :=
  "Here are " +:+ pretty count +:+ " news articles:" +:+ LF +:+ LF.

Fixpoint concat_strings (l : list string) : string :=
  match l with
  | [] => ""
  | x :: r => x +:+ concat_strings r
  end.

(** An article as [prepare_prompt] expects it. *)
Definition extracted (article : Article) : Prop :=
  is_Some (article !! "title") /\ is_Some (article !! "full_text").

(** A metadata record whose five fields come from the fields of the
    search result [result], and that holds nothing else. *)
Definition mapped_from (result : gmap string PyVal) (article : Article) : Prop :=
  article !! "title" = Some (dict_get result "title")
  /\ article !! "link" = Some (dict_get result "link")
  /\ article !! "source" = Some (dict_get result "source")
  /\ article !! "published_date" = Some (dict_get result "published")
  /\ article !! "snippet" = Some (dict_get result "snippet")
  /\ forall key, is_Some (article !! key) ->
       key ∈ ["title"; "link"; "source"; "published_date"; "snippet"].

(** The request [get_google_news_articles] sends. *)
Definition search_params (query : string) (serpapi_key : PyVal)
    (num_articles : Z) : SearchParams :=
  {| sp_engine := "google"; sp_q := query; sp_tbm := "nws";
     sp_api_key := serpapi_key; sp_num := num_articles |}.

(** The message of a search that is fatal: the call raised, or the
    response holds no result. *)
Definition search_failure (o : ApiOutcome) : option string :=
  match o with
  | ApiRaised e =>
      Some ("An error occurred while fetching articles: " +:+ exn_str e)
  | ApiDict None | ApiDict (Some []) =>
      Some "No news articles found for the given query."
  | ApiDict (Some (_ :: _)) => None
  end.

(** What the LLM Client prints for a failed call. *)
Definition llm_error_report (e : PyExn) : list string :=
  match e with
  | AttributeError _ =>
      ["AttributeError: " +:+ exn_str e +:+ LF;
       "Please ensure the 'openai' package is up-to-date." +:+ LF]
  | _ =>
      ["An error occurred while communicating with OpenAI API: "
       +:+ exn_str e +:+ LF]
  end.

(** The state after [lines] were written to standard output. *)
Definition written (lines : list string) (s : State) : State :=
  {| stdout := stdout s ++ lines; stdin := stdin s; net := net s |}.

(** An article of the list handed to the Prompt Builder, as the run left
    it: it has a title, and its full text is the trimmed text, not empty, of
    the page that one fetch of the run ([log] is the call log of the whole
    run) returned for its link. *)
Definition extracted_in_run (env : Env) (log : list Event) (article : Article)
    : Prop :=
  is_Some (article !! "title")
  /\ exists before after raw,
       log = before ++ fetch_of article :: after
       /\ newspaper env before (dict_get article "link") = FetchText raw
       /\ article !! "full_text" = Some (PyStr (strip raw))
       /\ strip (strip raw) <> "".

(** ** Characters at the ends of a string *)

(** Every character of [s] is whitespace (so is the empty string). *)
Fixpoint all_space (s : string) : bool :=
  match s with
  | EmptyString => true
  | String c r => isspace c && all_space r
  end.

Definition first_char (s : string) : option ascii :=
  match s with
  | EmptyString => None
  | String c _ => Some c
  end.

Fixpoint last_char (s : string) : option ascii :=
  match s with
  | EmptyString => None
  | String c EmptyString => Some c
  | String _ r => last_char r
  end.

(** A string that neither starts nor ends with whitespace, and is not
    empty. *)
Definition trimmed (s : string) : Prop :=
  (exists c, first_char s = Some c /\ isspace c = false)
  /\ (exists c, last_char s = Some c /\ isspace c = false).

(** The chat request [send_to_gpt] sends. *)
Definition chat_request (prompt : string) (openai_api_key : PyVal)
    : ChatRequest :=
  {| cr_api_key := openai_api_key;
     cr_model := "gpt-4";
     cr_messages := [("system", "You are a helpful assistant."); ("user", prompt)];
     cr_max_tokens := 1500;
     cr_temperature := 7 # 10 |}.

(** What [display_gpt_response] writes for [response]. *)
Definition framed (response : string) : list string :=
  [(LF +:+ "--- GPT-4 Response ---" +:+ LF) +:+ LF;
   response +:+ LF;
   (LF +:+ "-----------------------" +:+ LF) +:+ LF].

Definition is_fetch (ev : Event) : Prop :=
  match ev with
  | EvFetch _ => True
  | _ => False
  end.

(** ** Sample worlds *)

Module Samples.

(** A search result as the API returns it. *)
Definition result (title link : string) : gmap string PyVal :=
  <["title" := PyStr title]>
  (<["link" := PyStr link]>
  (<["source" := PyStr "Wire"]>
  (<["published" := PyStr "2 days ago"]>
  (<["snippet" := PyStr "..."]> ∅)))).

Definition five_results : list (gmap string PyVal) :=
  [result "A" "u1"; result "B" "u2"; result "C" "u3"; result "D" "u4";
   result "E" "u5"].

Definition seven_results : list (gmap string PyVal) :=
  five_results ++ [result "F" "u6"; result "G" "u7"].

Definition reply : ChatOutcome :=
  ChatResponse [ {| message_content := PyStr " The price moved on earnings. " |} ].

(** Every page has a body, whatever the URL. *)
Definition all_pages (results : list (gmap string PyVal)) : Env :=
  {| environ := <["SERPAPI_API_KEY" := "serp"]> (<["OPENAI_API_KEY" := "sk"]> ∅);
     google_search := fun _ _ => ApiDict (Some results);
     newspaper := fun _ url => FetchText (" Body of " +:+ py_str url +:+ LF);
     openai_ChatCompletion := true;
     chat_completion := fun _ _ => reply |}.

(** The second page cannot be fetched, the third has no text. *)
Definition some_pages (results : list (gmap string PyVal)) : Env :=
  {| environ := <["SERPAPI_API_KEY" := "serp"]> (<["OPENAI_API_KEY" := "sk"]> ∅);
     google_search := fun _ _ => ApiDict (Some results);
     newspaper := fun _ url =>
       match url with
       | PyStr "u2" => FetchRaised (Exception "404 Client Error")
       | PyStr "u3" => FetchText "   "
       | _ => FetchText (" Body of " +:+ py_str url +:+ LF)
       end;
     openai_ChatCompletion := true;
     chat_completion := fun _ _ => reply |}.

(** The body of every page is the sentence the extractor uses as its
    placeholder. *)
Definition placeholder_pages : Env :=
  {| environ := <["SERPAPI_API_KEY" := "serp"]> (<["OPENAI_API_KEY" := "sk"]> ∅);
     google_search := fun _ _ => ApiDict (Some [result "A" "u1"]);
     newspaper := fun _ _ => FetchText "Content could not be retrieved.";
     openai_ChatCompletion := true;
     chat_completion := fun _ _ => reply |}.

(** The search fails. *)
Definition no_search : Env :=
  {| environ := <["SERPAPI_API_KEY" := "serp"]> (<["OPENAI_API_KEY" := "sk"]> ∅);
     google_search := fun _ _ => ApiRaised (Exception "Invalid API key");
     newspaper := fun _ _ => FetchText "";
     openai_ChatCompletion := true;
     chat_completion := fun _ _ => reply |}.

(** An outdated client library: [openai] has no [ChatCompletion]. *)
Definition old_client : Env :=
  {| environ := <["SERPAPI_API_KEY" := "serp"]> (<["OPENAI_API_KEY" := "sk"]> ∅);
     google_search := fun _ _ => ApiDict (Some five_results);
     newspaper := fun _ url => FetchText (py_str url);
     openai_ChatCompletion := false;
     chat_completion := fun _ _ => reply |}.

(** A fresh run: nothing printed, no call made, [lines] waiting on
    standard input. *)
Definition console (lines : list string) : State :=
  {| stdout := []; stdin := lines; net := [] |}.

End Samples.

(** ** More sample worlds *)

Module MoreSamples.

(** No key in the environment: the SerpApi variable is set but empty, the
    OpenAI variable is missing. *)
Definition no_keys : Env :=
  {| environ := <["SERPAPI_API_KEY" := ""]> ∅;
     google_search := fun _ _ => ApiDict (Some Samples.five_results);
     newspaper := fun _ url => FetchText (py_str url);
     openai_ChatCompletion := true;
     chat_completion := fun _ _ => Samples.reply |}.

(** Five search results, and no page can be fetched. *)
Definition dead_links : Env :=
  {| environ := <["SERPAPI_API_KEY" := "serp"]> (<["OPENAI_API_KEY" := "sk"]> ∅);
     google_search := fun _ _ => ApiDict (Some Samples.five_results);
     newspaper := fun _ _ => FetchRaised (Exception "Article `download()` failed");
     openai_ChatCompletion := true;
     chat_completion := fun _ _ => Samples.reply |}.

(** One search result, whose page has a body. *)
Definition one_page : Env :=
  Samples.all_pages [Samples.result "A" "u1"].

End MoreSamples.

(** ** Strings: facts about [strip] *)

Lemma append_assoc (s1 s2 s3 : string) :
  (s1 +:+ s2) +:+ s3 = s1 +:+ s2 +:+ s3.
Proof. induction s1 as [|c s1 IH]; [done|]. cbv [String.append] in *. by f_equal. Qed.

Lemma append_nil_r (s : string) : s +:+ "" = s.
Proof. induction s as [|c s IH]; [done|]. cbv [String.append] in *. by f_equal. Qed.

Lemma truthy_true (s : string) : truthy s = true <-> s <> "".
Proof. destruct s; simpl; split; congruence. Qed.

Lemma truthy_false (s : string) : truthy s = false <-> s = "".
Proof. destruct s; simpl; split; congruence. Qed.

Lemma lstrip_head (s : string) :
  lstrip s = "" \/ exists c r, lstrip s = String c r /\ isspace c = false.
Proof.
  induction s as [|c r IH]; simpl; [by left|].
  destruct (isspace c) eqn:Hc; [exact IH|].
  right. by exists c, r.
Qed.

Lemma rstrip_cons (c : ascii) (r : string) :
  isspace c = false -> rstrip (String c r) = String c (rstrip r).
Proof. intros Hc. simpl. rewrite Hc. by destruct (rstrip r). Qed.

Lemma rstrip_idemp (s : string) : rstrip (rstrip s) = rstrip s.
Proof.
  induction s as [|c r IH]; simpl; [done|].
  destruct (rstrip r) as [|c' r'] eqn:Hr.
  - destruct (isspace c) eqn:Hc; simpl; [done|]. by rewrite Hc.
  - change (rstrip (String c (String c' r')) = String c (String c' r')).
    simpl in IH. simpl. by rewrite IH.
Qed.

Lemma strip_idemp (s : string) : strip (strip s) = strip s.
Proof.
  unfold strip. destruct (lstrip_head s) as [-> | (c & r & -> & Hc)]; [done|].
  rewrite rstrip_cons by done. simpl lstrip. rewrite Hc.
  rewrite rstrip_cons by done. by rewrite rstrip_idemp.
Qed.

(** ** Running the monad *)

Ltac run :=
  unfold bind, ret, raise, sys_exit, lift, print, input, call, try_except;
  simpl.

(** ** The Article Extractor *)

(** C3. [extract_article_text] always returns a (success, text) pair and
    never lets the exception of the download or parse through: it makes one
    fetch; success is true exactly when the page text, trimmed, is not empty,
    and the text returned is then that trimmed text; when the trimmed text is
    empty or the fetch raised, it returns success false with the placeholder
    "Content could not be retrieved.". *)
Theorem extract_article_text_result (env : Env) (url : PyVal) (s : State) :
  exists ok text s',
    extract_article_text env url s = (Return (ok, text), s')
    /\ net s' = net s ++ [EvFetch url]
    /\ (ok = true <->
        exists raw, newspaper env (net s) url = FetchText raw /\ strip raw <> "")
    /\ (ok = true ->
        exists raw, newspaper env (net s) url = FetchText raw /\ text = strip raw)
    /\ ((exists e, newspaper env (net s) url = FetchRaised e)
        \/ (exists raw, newspaper env (net s) url = FetchText raw /\ strip raw = "")
        -> ok = false /\ text = "Content could not be retrieved.").
Proof.
  unfold extract_article_text, Article_text. run.
  destruct (newspaper env (net s) url) as [e|raw] eqn:Hpage; simpl.
  - eexists false, placeholder, _. split; [reflexivity|]. simpl.
    split; [done|]. split; [|split]; [|done|done].
    split; [done|]. intros (raw & Hraw & _). discriminate.
  - destruct (truthy (strip raw)) eqn:Htext; simpl.
    + apply truthy_true in Htext.
      eexists true, (strip raw), _. split; [reflexivity|]. simpl.
      split; [done|]. split; [|split].
      * split; [|done]. intros _. by exists raw.
      * intros _. by exists raw.
      * intros [[e He]|(raw' & Hraw' & Hempty)]; [discriminate|].
        injection Hraw' as <-. contradiction.
    + apply truthy_false in Htext.
      eexists false, placeholder, _. split; [reflexivity|]. simpl.
      split; [done|]. split; [|split]; [|done|done].
      split; [done|]. intros (raw' & Hraw' & Hne).
      injection Hraw' as <-. contradiction.
Qed.

(** The same result in the shape the loop uses. *)
Lemma extract_article_text_run (env : Env) (url : PyVal) (s : State) :
  exists s',
    extract_article_text env url s
    = (Return (match extraction_at env (net s) url with
               | Some text => (true, text)
               | None => (false, placeholder)
               end), s')
    /\ net s' = net s ++ [EvFetch url] /\ stdin s' = stdin s.
Proof.
  unfold extract_article_text, Article_text, extraction_at. run.
  destruct (newspaper env (net s) url) as [e|raw]; simpl.
  - by eexists.
  - destruct (truthy (strip raw)); simpl; by eexists.
Qed.

(** ** The Query Collector *)

(** [get_api_keys] makes no network call. *)
Lemma get_api_keys_net (env : Env) (s s' : State) (o : Outcome (PyVal * PyVal)) :
  get_api_keys env s = (o, s') -> net s' = net s.
Proof.
  unfold get_api_keys. run.
  destruct (py_not (os_getenv env "SERPAPI_API_KEY")); simpl;
    destruct (py_not (os_getenv env "OPENAI_API_KEY")); simpl;
    destruct (stdin s) as [|? [|? ?]]; simpl;
    intros [= <- <-]; reflexivity.
Qed.

(** C5. When the line typed as the query is empty once trimmed, [main]
    prints "Search query cannot be empty." and ends with [sys.exit(1)]
    without any network call; there is no other check: a query whose trimmed
    content is not empty is returned, trimmed, whatever it holds. *)
Theorem empty_query_exits (env : Env) (s s1 : State) (keys : PyVal * PyVal)
    (line : string) (rest : list string) :
  get_api_keys env s = (Return keys, s1) ->
  stdin s1 = line :: rest ->
  (strip line = "" ->
     exists s',
       main env s = (SysExit 1, s') /\ net s' = net s
       /\ stdout s'
          = stdout s1 ++ ["Enter your search query for Google News: ";
                          "Search query cannot be empty." +:+ LF])
  /\ (strip line <> "" ->
      exists s2, get_user_query s1 = (Return (strip line), s2)
                 /\ net s2 = net s /\ stdin s2 = rest).
Proof.
  intros Hkeys Hin. pose proof (get_api_keys_net _ _ _ _ Hkeys) as Hnet.
  split.
  - intros Hempty. unfold main. unfold bind at 1. rewrite Hkeys.
    unfold get_user_query. run. rewrite Hin, Hempty. simpl.
    eexists. split; [reflexivity|]. simpl. by rewrite <- app_assoc.
  - intros Hne. unfold get_user_query. run. rewrite Hin.
    apply truthy_true in Hne. rewrite Hne. simpl. by eexists.
Qed.

Lemma empty_query_exits_witness :
  exists s',
    main (Samples.all_pages Samples.five_results) (Samples.console ["   "])
    = (SysExit 1, s')
    /\ net s' = [].
Proof.
  destruct (proj1 (empty_query_exits (Samples.all_pages Samples.five_results)
                     (Samples.console ["   "]) (Samples.console ["   "])
                     (PyStr "serp", PyStr "sk") "   " [] eq_refl eq_refl)
              eq_refl) as (s' & Hrun & Hnet & _).
  by exists s'.
Defined.

(** ** The Search Client *)

Lemma fold_left_append {A B} (f : A -> B) (l : list A) (acc : list B) :
  fold_left (fun articles article => articles ++ [f article]) l acc
  = acc ++ map f l.
Proof.
  revert acc. induction l as [|x l IH]; intros acc; simpl.
  - by rewrite app_nil_r.
  - rewrite IH. by rewrite <- app_assoc.
Qed.

Lemma article_info_mapped (result : gmap string PyVal) :
  mapped_from result (article_info result).
Proof.
  unfold mapped_from, article_info. repeat split; try by simplify_map_eq.
  intros key [v Hv].
  repeat (apply lookup_insert_Some in Hv as [[<- _]|[_ Hv]];
          [set_solver|]).
  by rewrite lookup_empty in Hv.
Qed.

(** What the Search Client does with a response that holds results. *)
Lemma get_google_news_articles_found (env : Env) (query : string)
    (serpapi_key : PyVal) (num_articles : Z) (s : State)
    (results : list (gmap string PyVal)) :
  google_search env (net s) (search_params query serpapi_key num_articles)
  = ApiDict (Some results) ->
  results <> [] ->
  get_google_news_articles env query serpapi_key num_articles s
  = (Return (map article_info results),
     {| stdout := stdout s; stdin := stdin s;
        net := net s ++ [EvSearch (search_params query serpapi_key num_articles)] |}).
Proof.
  intros Hres Hne. unfold get_google_news_articles, GoogleSearch_get_dict.
  fold (search_params query serpapi_key num_articles). run. rewrite Hres. simpl.
  destruct results as [|r rs]; [done|].
  by rewrite (fold_left_append article_info (r :: rs) []).
Qed.

(** What it does with a failed call or an empty response. *)
Lemma get_google_news_articles_failed (env : Env) (query : string)
    (serpapi_key : PyVal) (num_articles : Z) (s : State) (msg : string) :
  search_failure
    (google_search env (net s) (search_params query serpapi_key num_articles))
  = Some msg ->
  get_google_news_articles env query serpapi_key num_articles s
  = (SysExit 1,
     {| stdout := stdout s ++ [msg +:+ LF]; stdin := stdin s;
        net := net s ++ [EvSearch (search_params query serpapi_key num_articles)] |}).
Proof.
  intros Hfail. unfold get_google_news_articles, GoogleSearch_get_dict.
  fold (search_params query serpapi_key num_articles). run.
  destruct (google_search env (net s) _) as [e|[[|r rs]|]];
    simpl in *; by simplify_eq.
Qed.

(** C2. For a response whose news-result list has length K with
    1 <= K <= 10, the Search Client returns exactly K metadata records, in
    the order of the response, each with its five fields title, link, source,
    published_date and snippet taken from the result's title, link, source,
    published and snippet (None for a field the result lacks), after one
    search call. These K records are at most [num_articles] for the default
    [num_articles] of 10, which is also what [main] passes, and for any
    larger one. *)
Theorem search_results_mapped (env : Env) (query : string) (serpapi_key : PyVal)
    (num_articles : Z) (s : State) (results : list (gmap string PyVal)) :
  google_search env (net s) (search_params query serpapi_key num_articles)
  = ApiDict (Some results) ->
  1 <= length results <= 10 ->
  exists articles s',
    get_google_news_articles env query serpapi_key num_articles s
    = (Return articles, s')
    /\ length articles = length results
    /\ (forall i result, results !! i = Some result ->
          exists article, articles !! i = Some article /\ mapped_from result article)
    /\ (10 <= num_articles -> Z.of_nat (length articles) <= num_articles)%Z
    /\ net s' = net s ++ [EvSearch (search_params query serpapi_key num_articles)].
Proof.
  intros Hres [Hlo Hhi].
  assert (results <> []) as Hne by (intros ->; simpl in Hlo; lia).
  eexists _, _. split; [by apply get_google_news_articles_found|].
  split; [by rewrite length_map|]. split; [|split; [|done]].
  - intros i result Hi. exists (article_info result).
    split; [|apply article_info_mapped].
    by rewrite list_lookup_fmap, Hi.
  - intros Hn. rewrite length_map. lia.
Qed.

Lemma search_results_mapped_witness :
  exists articles s',
    get_google_news_articles (Samples.all_pages Samples.five_results)
      "acme" (PyStr "serp") 10 (Samples.console []) = (Return articles, s')
    /\ length articles = 5.
Proof.
  destruct (search_results_mapped (Samples.all_pages Samples.five_results)
              "acme" (PyStr "serp") 10 (Samples.console []) Samples.five_results)
    as (articles & s' & Hrun & Hlen & _).
  - reflexivity.
  - simpl. lia.
  - by exists articles, s'.
Defined.

(** C6. Once the keys and the query are read, a search whose call raises, or
    whose response holds no news result, makes [main] print one message and
    end with [sys.exit(1)]: "An error occurred while fetching articles: ..."
    for a raised error, "No news articles found for the given query."
    otherwise. The search is the only network call of the run: nothing is
    fetched, and the search is not made again. *)
Theorem search_failure_exits (env : Env) (s s1 s2 : State)
    (keys : PyVal * PyVal) (query msg : string) :
  get_api_keys env s = (Return keys, s1) ->
  get_user_query s1 = (Return query, s2) ->
  search_failure (google_search env (net s2) (search_params query (fst keys) 10))
  = Some msg ->
  exists s',
    main env s = (SysExit 1, s')
    /\ net s' = net s2 ++ [EvSearch (search_params query (fst keys) 10)]
    /\ stdout s'
       = stdout s2 ++ [LF +:+ "Fetching up to 10 news articles..." +:+ LF +:+ LF;
                       msg +:+ LF].
Proof.
  intros Hkeys Hquery Hfail. unfold main.
  unfold bind at 1. rewrite Hkeys. unfold bind at 1. rewrite Hquery.
  unfold bind at 1. unfold print at 1. cbv beta iota. unfold bind at 1.
  erewrite get_google_news_articles_failed by exact Hfail.
  eexists. split; [reflexivity|]. simpl. split; [done|].
  by rewrite <- app_assoc.
Qed.

Lemma search_failure_exits_witness :
  exists s',
    main Samples.no_search (Samples.console ["acme"]) = (SysExit 1, s')
    /\ net s' = [EvSearch (search_params "acme" (PyStr "serp") 10)].
Proof.
  destruct (search_failure_exits Samples.no_search (Samples.console ["acme"])
              (Samples.console ["acme"])
              {| stdout := ["Enter your search query for Google News: "];
                 stdin := []; net := [] |}
              (PyStr "serp", PyStr "sk") "acme"
              "An error occurred while fetching articles: Invalid API key")
    as (s' & Hrun & Hnet & _); try reflexivity.
  by exists s'.
Defined.

(** ** After the extraction loop *)

(** C4 as amended. After the loop, whatever follows ([k]): with no article
    extracted the program prints "No articles were successfully retrieved.
    Exiting." and ends with [sys.exit(1)], and what follows is not run; with
    1 to 4 articles it prints the warning "Only n articles were successfully
    retrieved." and goes on; with 5 articles it prints "Successfully
    retrieved 5 articles." and goes on. *)
Theorem report_extraction_cases {B : Type} (successful_articles : list Article)
    (k : M B) (s : State) :
  (length successful_articles = 0 ->
     (report_extraction successful_articles ;;; k) s
     = (SysExit 1,
        written ["No articles were successfully retrieved. Exiting." +:+ LF] s))
  /\ (1 <= length successful_articles <= 4 ->
      (report_extraction successful_articles ;;; k) s
      = k (written [LF +:+ "Only " +:+ pretty (length successful_articles)
                    +:+ " articles were successfully retrieved." +:+ LF +:+ LF] s))
  /\ (length successful_articles = 5 ->
      (report_extraction successful_articles ;;; k) s
      = k (written [LF +:+ "Successfully retrieved 5 articles." +:+ LF +:+ LF] s)).
Proof.
  unfold report_extraction, written.
  destruct successful_articles as [|a l]; run.
  - repeat split; [lia|discriminate].
  - split; [discriminate|]. split.
    + intros [_ Hhi]. destruct (Nat.ltb_spec (S (length l)) 5); [|lia].
      by rewrite !append_assoc.
    + intros Hlen. rewrite Hlen. reflexivity.
Qed.

Lemma report_extraction_cases_witness :
  (report_extraction [Samples.result "A" "u1"; Samples.result "B" "u2"] ;;;
   print "next") (Samples.console [])
  = (Return tt,
     written [LF +:+ "Only 2 articles were successfully retrieved." +:+ LF +:+ LF;
              "next" +:+ LF] (Samples.console [])).
Proof.
  rewrite (proj1 (proj2 (report_extraction_cases
             [Samples.result "A" "u1"; Samples.result "B" "u2"]
             (print "next") (Samples.console [])))) by (simpl; lia).
  reflexivity.
Defined.

(** C4 as stated fails: with exactly 5 articles the program does not go on
    silently, "Successfully retrieved 5 articles." is printed. *)
Lemma five_articles_not_silent :
  ~ (forall (successful_articles : list Article) (s : State),
       length successful_articles = 5 ->
       exists s',
         report_extraction successful_articles s = (Return tt, s')
         /\ stdout s' = stdout s).
Proof.
  intros Hclaim.
  destruct (Hclaim Samples.five_results (Samples.console []) eq_refl)
    as (s' & Hrun & Hout).
  vm_compute in Hrun. injection Hrun as <-. discriminate.
Qed.

(** ** The LLM Client *)

(** C9 as amended. [send_to_gpt] makes at most one chat-completion call.
    With a client library that has [openai.ChatCompletion], it makes exactly
    one, with the system message "You are a helpful assistant.", the prompt
    as the user message, max_tokens 1500 and temperature 0.7: when the call
    returns choices whose first has text content, that content is returned,
    trimmed, and nothing is printed; when the call raises (an
    [AttributeError] included), or the response cannot be read, the error is
    printed and the process ends with [sys.exit(1)]. With an outdated client
    library, which lacks [openai.ChatCompletion], no request is sent: the
    [AttributeError] is printed with the advice to update the package and the
    process ends with [sys.exit(1)]. The call is never made again. *)
Theorem send_to_gpt_result (env : Env) (prompt : string) (openai_api_key : PyVal)
    (s : State) :
  let request :=
    {| cr_api_key := openai_api_key; cr_model := "gpt-4";
       cr_messages :=
         [("system", "You are a helpful assistant."); ("user", prompt)];
       cr_max_tokens := 1500; cr_temperature := 7 # 10 |} in
  exists o s',
    send_to_gpt env prompt openai_api_key s = (o, s')
    /\ (openai_ChatCompletion env = true ->
        net s' = net s ++ [EvChat request]
        /\ (forall choice others content,
              chat_completion env (net s) request
              = ChatResponse (choice :: others) ->
              message_content choice = PyStr content ->
              o = Return (strip content) /\ stdout s' = stdout s)
        /\ (forall e,
              chat_completion env (net s) request = ChatRaised e ->
              o = SysExit 1 /\ stdout s' = stdout s ++ llm_error_report e)
        /\ (forall choice others,
              chat_completion env (net s) request
              = ChatResponse (choice :: others) ->
              message_content choice = PyNone ->
              o = SysExit 1 /\ length (stdout s') = 2 + length (stdout s))
        /\ (chat_completion env (net s) request = ChatResponse [] ->
            o = SysExit 1 /\ length (stdout s') = 1 + length (stdout s)))
    /\ (openai_ChatCompletion env = false ->
        net s' = net s
        /\ o = SysExit 1
        /\ stdout s'
           = stdout s
             ++ ["AttributeError: module 'openai' has no attribute 'ChatCompletion'"
                 +:+ LF;
                 "Please ensure the 'openai' package is up-to-date." +:+ LF]).
Proof.
  intros request. unfold send_to_gpt, ChatCompletion_create.
  fold request. destruct (openai_ChatCompletion env); run.
  2: { eexists _, _. split; [reflexivity|]. split; [done|]. intros _. simpl.
       split; [done|]. split; [done|]. by rewrite <- app_assoc. }
  destruct (chat_completion env (net s) request) as [e|[|choice others]] eqn:Hc;
    simpl.
  - destruct e; simpl; eexists _, _; (split; [reflexivity|]);
      (split; [|done]); intros _; simpl;
      (split; [done|]); repeat split; try discriminate;
      intros; simplify_eq; simpl; by rewrite <- ?app_assoc.
  - eexists _, _. split; [reflexivity|]. split; [|done]. intros _. simpl.
    split; [done|].
    repeat split; try discriminate. rewrite length_app. simpl. lia.
  - destruct (message_content choice) as [|content] eqn:Hm; simpl.
    + eexists _, _. split; [reflexivity|]. split; [|done]. intros _. simpl.
      split; [done|].
      repeat split; try discriminate; try congruence.
      rewrite !length_app. simpl. lia.
    + eexists _, _. split; [reflexivity|]. split; [|done]. intros _. simpl.
      split; [done|].
      repeat split; try discriminate; congruence.
Qed.

(** C9 as stated fails: with an outdated client library the lookup of
    [openai.ChatCompletion] raises before anything is sent, so the run of
    [send_to_gpt] ends with [sys.exit(1)] without a chat-completion
    request. *)
Lemma outdated_client_sends_no_request :
  ~ (forall (env : Env) (prompt : string) (openai_api_key : PyVal) (s : State),
       exists o s',
         send_to_gpt env prompt openai_api_key s = (o, s')
         /\ net s'
            = net s
              ++ [EvChat
                    {| cr_api_key := openai_api_key; cr_model := "gpt-4";
                       cr_messages :=
                         [("system", "You are a helpful assistant.");
                          ("user", prompt)];
                       cr_max_tokens := 1500; cr_temperature := 7 # 10 |}]).
Proof.
  intros Hclaim.
  destruct (Hclaim Samples.old_client "prompt" (PyStr "sk") (Samples.console []))
    as (o & s' & Hrun & Hnet).
  vm_compute in Hrun. injection Hrun as <- <-. discriminate.
Qed.

(** ** The Prompt Builder *)

(** The loop only ever appends to the prompt it is given. *)
Lemma prepare_prompt_loop_extends (articles : list Article) (idx : nat)
    (prompt result : string) :
  prepare_prompt_loop idx articles prompt = Return result ->
  exists added, result = prompt +:+ added.
Proof.
  revert idx prompt. induction articles as [|a l IH]; intros idx prompt; simpl.
  - intros [= <-]. exists "". by rewrite append_nil_r.
  - unfold getitem. destruct (a !! "title") as [title|]; [|done].
    destruct (a !! "full_text") as [text|]; [|done]. simpl.
    intros Hrun. apply IH in Hrun as [added ->].
    eexists. rewrite !append_assoc. reflexivity.
Qed.

(** The loop reads nothing of an article but its title and its text. *)
Lemma prepare_prompt_loop_agree (articles1 articles2 : list Article)
    (idx : nat) (prompt : string) :
  map (fun a : Article => a !! "title") articles1
  = map (fun a : Article => a !! "title") articles2 ->
  map (fun a : Article => a !! "full_text") articles1
  = map (fun a : Article => a !! "full_text") articles2 ->
  prepare_prompt_loop idx articles1 prompt
  = prepare_prompt_loop idx articles2 prompt.
Proof.
  revert articles2 idx prompt.
  induction articles1 as [|a1 l1 IH]; intros [|a2 l2] idx prompt;
    simpl; try done.
  intros [= Ht Hts] [= Hf Hfs]. unfold getitem. rewrite Ht, Hf.
  destruct (a2 !! "title"); [|done]. destruct (a2 !! "full_text"); [|done].
  simpl. by apply IH.
Qed.

(** C7. Two article lists with the same titles and the same full texts, in
    the same order, give the same result of [prepare_prompt], character for
    character, whatever else the articles hold; and a prompt that is built
    starts with "Here are n news articles:" where n is the length of the
    list. *)
Theorem prepare_prompt_deterministic (articles1 articles2 : list Article) :
  map (fun a : Article => a !! "title") articles1
  = map (fun a : Article => a !! "title") articles2 ->
  map (fun a : Article => a !! "full_text") articles1
  = map (fun a : Article => a !! "full_text") articles2 ->
  prepare_prompt articles1 = prepare_prompt articles2
  /\ forall prompt, prepare_prompt articles1 = Return prompt ->
       exists rest,
         prompt = "Here are " +:+ pretty (length articles1)
                  +:+ " news articles:" +:+ LF +:+ LF +:+ rest.
Proof.
  intros Ht Hf. split.
  - unfold prepare_prompt.
    assert (length articles1 = length articles2) as ->.
    { by rewrite <- (length_map (fun a : Article => a !! "title") articles1),
        Ht, length_map. }
    by rewrite (prepare_prompt_loop_agree articles1 articles2).
  - intros prompt. unfold prepare_prompt.
    destruct (prepare_prompt_loop 1 articles1 _) as [p| |] eqn:Hloop;
      simpl; [|done..].
    intros [= <-]. apply prepare_prompt_loop_extends in Hloop as [added ->].
    eexists. rewrite !append_assoc. reflexivity.
Qed.

Lemma prepare_prompt_deterministic_witness :
  prepare_prompt [<["full_text" := PyStr "Shares fell."]> (Samples.result "A" "u1")]
  = prepare_prompt
      [<["full_text" := PyStr "Shares fell."]>
         (<["title" := PyStr "A"]> (<["link" := PyStr "elsewhere"]> ∅))].
Proof.
  apply (prepare_prompt_deterministic
           [<["full_text" := PyStr "Shares fell."]> (Samples.result "A" "u1")]
           [<["full_text" := PyStr "Shares fell."]>
              (<["title" := PyStr "A"]> (<["link" := PyStr "elsewhere"]> ∅))]);
    reflexivity.
Defined.

Lemma prepare_prompt_loop_blocks (articles : list Article) (n : nat)
    (prompt : string) :
  Forall extracted articles ->
  prepare_prompt_loop (S n) articles prompt
  = Return (prompt
            +:+ concat_strings (imap (fun i => article_block (n + i)) articles)).
Proof.
  revert n prompt. induction articles as [|a l IH]; intros n prompt Hall; simpl.
  - by rewrite append_nil_r.
  - apply Forall_cons in Hall as [[[title Ht] [text Hf]] Hall].
    unfold getitem. rewrite Ht, Hf. simpl. rewrite IH by done.
    f_equal. unfold article_block at 2, dict_get. rewrite Ht, Hf. simpl.
    rewrite Nat.add_0_r, !append_assoc. do 13 f_equal.
    apply imap_ext. intros i x _. simpl. f_equal. lia.
Qed.

Lemma concat_strings_lookup (blocks : list string) (i : nat) (block : string) :
  blocks !! i = Some block ->
  exists before after, concat_strings blocks = before +:+ block +:+ after.
Proof.
  revert i. induction blocks as [|b l IH]; intros [|i]; simpl; try done.
  - intros [= ->]. by exists "", (concat_strings l).
  - intros Hi. destruct (IH i Hi) as (before & after & ->).
    exists (b +:+ before), after. by rewrite append_assoc.
Qed.

(** C8. For a list of articles that have a title and a full text,
    [prepare_prompt] returns the header stating the count, then one block per
    article in input order, holding "Article i:", the title and the whole
    full text, then the fixed instruction about a change in stock price. The
    block of every article stands in the prompt as it is: nothing of the text
    is cut, whatever its length. *)
Theorem prepare_prompt_layout (articles : list Article) :
  Forall extracted articles ->
  prepare_prompt articles
  = Return ("Here are " +:+ pretty (length articles) +:+ " news articles:"
            +:+ LF +:+ LF
            +:+ concat_strings (imap article_block articles)
            +:+ "Please provide your analysis based on the above articles. Focus on the potential reasons behind a recent change in stock price.")
  /\ forall i article title text,
       articles !! i = Some article ->
       article !! "title" = Some title ->
       article !! "full_text" = Some text ->
       exists before after,
         prepare_prompt articles
         = Return (before
                   +:+ ("Article " +:+ pretty (S i) +:+ ":" +:+ LF
                        +:+ "Title: " +:+ py_str title +:+ LF
                        +:+ "Content: " +:+ py_str text +:+ LF +:+ LF)
                   +:+ after).
Proof.
  intros Hall.
  assert (prepare_prompt articles
          = Return (prompt_header (length articles)
                    +:+ concat_strings (imap article_block articles)
                    +:+ trailing_instruction)) as Hlayout.
  { unfold prepare_prompt.
    rewrite (prepare_prompt_loop_blocks articles 0) by done. simpl.
    unfold prompt_header. by rewrite !append_assoc. }
  split.
  - rewrite Hlayout. unfold prompt_header. by rewrite !append_assoc.
  - intros i article title text Hi Ht Hf.
    destruct (concat_strings_lookup (imap article_block articles) i
                (article_block i article)) as (before & after & Hcat).
    { by rewrite list_lookup_imap, Hi. }
    rewrite Hlayout, Hcat.
    exists (prompt_header (length articles) +:+ before),
           (after +:+ trailing_instruction).
    unfold article_block, dict_get. rewrite Ht, Hf. simpl.
    by rewrite !append_assoc.
Qed.

Lemma prepare_prompt_layout_witness :
  prepare_prompt [<["full_text" := PyStr "Shares fell."]> (Samples.result "A" "u1")]
  = Return ("Here are 1 news articles:" +:+ LF +:+ LF
            +:+ "Article 1:" +:+ LF +:+ "Title: A" +:+ LF
            +:+ "Content: Shares fell." +:+ LF +:+ LF
            +:+ trailing_instruction).
Proof.
  rewrite (proj1 (prepare_prompt_layout
             [<["full_text" := PyStr "Shares fell."]> (Samples.result "A" "u1")]
             ltac:(repeat constructor; eexists; reflexivity))).
  reflexivity.
Defined.

(** ** The extraction loop *)

Lemma bind_run {A B : Type} (m : M A) (k : A -> M B) (s s' : State) (a : A) :
  m s = (Return a, s') -> bind m k s = k a s'.
Proof. intros Hm. unfold bind. by rewrite Hm. Qed.

Lemma examined_zero (os : list (option string)) : examined 0 os = 0.
Proof. by destruct os. Qed.

Section LoopRun.

#[local] Arguments Nat.leb : simpl never.
#[local] Arguments Nat.sub : simpl never.

(** The loop, from any point of its run: with [successful_articles] built so
    far, it tries candidates until the missing successes are reached. *)
Lemma extraction_loop_run (env : Env) (articles : list Article) (idx : nat)
    (successful_articles : list Article) (s : State) :
  Forall (fun a : Article => is_Some (a !! "link")) articles ->
  let os := attempts env (net s) articles in
  let k := examined (5 - length successful_articles) os in
  exists s',
    extraction_loop env idx articles successful_articles s
    = (Return (successful_articles ++ kept (take k os) (take k articles)), s')
    /\ net s' = net s ++ map fetch_of (take k articles)
    /\ stdin s' = stdin s.
Proof.
  revert idx successful_articles s.
  induction articles as [|a rest IH]; intros idx acc s Hlinks; simpl.
  - exists s. rewrite !take_nil. simpl. by rewrite !app_nil_r.
  - apply Forall_cons in Hlinks as [[link Hlink] Hlinks].
    destruct (Nat.le_gt_cases 5 (length acc)) as [Hfull|Hroom].
    + destruct (Nat.leb_spec 5 (length acc)) as [_|?]; [|lia].
      replace (5 - length acc) with 0 by lia. simpl.
      exists s. by rewrite !app_nil_r.
    + destruct (Nat.leb_spec 5 (length acc)) as [?|_]; [lia|].
      destruct (5 - length acc) as [|need] eqn:Hneed; [lia|].
      unfold getitem, dict_get. rewrite Hlink. simpl.
      unfold lift at 1. unfold bind at 1. unfold print at 1. unfold bind at 1.
      unfold lift at 1. unfold bind at 1.
      match goal with |- context [bind (extract_article_text env link) _ ?s1] =>
        destruct (extract_article_text_run env link s1)
          as (s2 & Hrun & Hnet2 & Hin2) end.
      simpl in Hrun, Hnet2, Hin2.
      setoid_rewrite (bind_run _ _ _ _ _ Hrun).
      destruct (extraction_at env (net s) link) as [text|]; simpl.
      * unfold print at 1. unfold bind at 1.
        match goal with |- context [extraction_loop env (S idx) rest ?acc' ?s3] =>
          destruct (IH (S idx) acc' s3 Hlinks) as (s' & Hloop & Hnet & Hin) end.
        simpl in Hloop, Hnet, Hin.
        exists s'. rewrite Hloop, Hnet, Hin, Hin2, !Hnet2.
        rewrite length_app. simpl length.
        replace (5 - (length acc + 1)) with need by lia.
        unfold fetch_of at 2, dict_get. rewrite Hlink. simpl.
        by rewrite <- !app_assoc.
      * unfold print at 1. unfold bind at 1.
        match goal with |- context [extraction_loop env (S idx) rest ?acc' ?s3] =>
          destruct (IH (S idx) acc' s3 Hlinks) as (s' & Hloop & Hnet & Hin) end.
        simpl in Hloop, Hnet, Hin.
        exists s'. rewrite Hloop, Hnet, Hin, Hin2, !Hnet2, Hneed.
        unfold fetch_of at 2, dict_get. rewrite Hlink. simpl.
        by rewrite <- !app_assoc.
Qed.

End LoopRun.

(** *** Counting the attempts *)

Lemma length_attempts (env : Env) (h : list Event) (articles : list Article) :
  length (attempts env h articles) = length articles.
Proof.
  revert h. induction articles as [|a l IH]; intros h; simpl; [done|].
  by rewrite IH.
Qed.

Lemma attempts_take (env : Env) (h : list Event) (articles : list Article)
    (k : nat) :
  take k (attempts env h articles) = attempts env h (take k articles).
Proof.
  revert h k. induction articles as [|a l IH]; intros h [|k]; simpl; try done.
  by rewrite IH.
Qed.

Lemma examined_le (need : nat) (os : list (option string)) :
  examined need os <= length os.
Proof.
  revert need. induction os as [|[t|] os IH]; intros [|need]; simpl; try lia.
  - specialize (IH need). lia.
  - specialize (IH (S need)). lia.
Qed.

Lemma successes_take_le (os : list (option string)) (j : nat) :
  successes (take j os) <= successes os.
Proof.
  revert j. induction os as [|[t|] os IH]; intros [|j]; simpl; try lia.
  - specialize (IH j). lia.
  - apply IH.
Qed.

(** Before the loop stops, the successes needed are not yet reached. *)
Lemma examined_minimal (need : nat) (os : list (option string)) (j : nat) :
  j < examined need os -> successes (take j os) < need.
Proof.
  revert need j. induction os as [|[t|] os IH]; intros [|need] [|j]; simpl;
    try lia.
  - intros Hj. assert (j < examined need os) as Hlt by lia.
    apply IH in Hlt. lia.
  - intros Hj. apply IH. lia.
Qed.

(** When it stops with candidates left, the successes needed are reached. *)
Lemma examined_reached (need : nat) (os : list (option string)) :
  examined need os < length os ->
  successes (take (examined need os) os) = need.
Proof.
  revert need. induction os as [|[t|] os IH]; intros [|need]; simpl; try lia.
  - intros Hlt. rewrite IH; lia.
  - intros Hlt. apply IH. lia.
Qed.

Lemma successes_examined (need : nat) (os : list (option string)) :
  successes (take (examined need os) os) <= need.
Proof.
  revert need. induction os as [|[t|] os IH]; intros [|need]; simpl; try lia.
  - specialize (IH need). lia.
  - apply IH.
Qed.

Lemma length_kept (os : list (option string)) (articles : list Article) :
  length os = length articles -> length (kept os articles) = successes os.
Proof.
  revert articles. induction os as [|[t|] os IH]; intros [|a l]; simpl;
    try done; intros [= Hlen]; by rewrite IH.
Qed.

(** C1. Over candidates that have a link, the loop returns; with k the
    number of candidates it examined: the fetches it made are those of the
    first k candidates, in search-result order, one per candidate (a failed
    one is not tried again); the articles returned are the ones among these
    whose extraction succeeded; before the last examined candidate fewer than
    5 successes were accumulated; when unexamined candidates remain exactly 5
    were accumulated; and when fewer than 5 extractions succeed over the
    whole list, every candidate is examined. *)
Theorem extraction_loop_stops_at_five (env : Env) (articles : list Article)
    (s : State) :
  Forall (fun a : Article => is_Some (a !! "link")) articles ->
  let os := attempts env (net s) articles in
  exists k successful s',
    extraction_loop env 1 articles [] s = (Return successful, s')
    /\ k <= length articles
    /\ net s' = net s ++ map fetch_of (take k articles)
    /\ successful = kept (take k os) (take k articles)
    /\ length successful = successes (take k os)
    /\ (forall j, j < k -> successes (take j os) < 5)
    /\ (k < length articles -> length successful = 5)
    /\ length successful <= 5
    /\ (successes os < 5 -> k = length articles).
Proof.
  intros Hlinks os.
  destruct (extraction_loop_run env articles 1 [] s Hlinks)
    as (s' & Hrun & Hnet & _).
  simpl in Hrun, Hnet. fold os in Hrun, Hnet.
  change (5 - 0) with 5 in Hrun, Hnet.
  pose proof (length_attempts env (net s) articles) as Hlen. fold os in Hlen.
  pose proof (examined_le 5 os) as Hle.
  assert (length (kept (take (examined 5 os) os) (take (examined 5 os) articles))
          = successes (take (examined 5 os) os)) as Hkept.
  { apply length_kept. rewrite !length_take. lia. }
  eexists (examined 5 os), _, s'. split; [exact Hrun|].
  split; [lia|]. split; [exact Hnet|]. split; [done|]. split; [exact Hkept|].
  split; [apply examined_minimal|]. split; [|split].
  - intros Hlt. rewrite Hkept. apply examined_reached. lia.
  - rewrite Hkept. apply successes_examined.
  - intros Hfew. destruct (decide (examined 5 os < length os)) as [Hlt|]; [|lia].
    pose proof (examined_reached 5 os Hlt) as Hfive.
    pose proof (successes_take_le os (examined 5 os)). lia.
Qed.

Lemma extraction_loop_stops_at_five_witness :
  exists k successful s',
    extraction_loop (Samples.all_pages Samples.seven_results) 1
      (map article_info Samples.seven_results) [] (Samples.console [])
    = (Return successful, s')
    /\ net s' = map fetch_of (take k (map article_info Samples.seven_results))
    /\ length successful <= 5.
Proof.
  destruct (extraction_loop_stops_at_five
              (Samples.all_pages Samples.seven_results)
              (map article_info Samples.seven_results) (Samples.console []))
    as (k & successful & s' & Hrun & _ & Hnet & _ & _ & _ & _ & Hfive & _).
  - repeat constructor; by eexists.
  - exists k, successful, s'.
    split; [exact Hrun|]. split; [exact Hnet|exact Hfive].
Defined.

(** On that list the loop stops after the fifth candidate: the sixth and the
    seventh are not fetched. *)
Example extraction_loop_leaves_candidates :
  let run :=
    extraction_loop (Samples.all_pages Samples.seven_results) 1
      (map article_info Samples.seven_results) [] (Samples.console []) in
  net (snd run)
  = [EvFetch (PyStr "u1"); EvFetch (PyStr "u2"); EvFetch (PyStr "u3");
     EvFetch (PyStr "u4"); EvFetch (PyStr "u5")].
Proof. vm_compute. reflexivity. Qed.

(** ** What reaches the Prompt Builder *)

(** The Search Client returns only records built by [article_info]. *)
Lemma get_google_news_articles_returns (env : Env) (query : string)
    (serpapi_key : PyVal) (num_articles : Z) (s s1 : State)
    (articles : list Article) :
  get_google_news_articles env query serpapi_key num_articles s
  = (Return articles, s1) ->
  exists results,
    articles = map article_info results
    /\ net s1 = net s ++ [EvSearch (search_params query serpapi_key num_articles)].
Proof.
  intros Hrun.
  destruct (google_search env (net s)
              (search_params query serpapi_key num_articles))
    as [e|[[|r rs]|]] eqn:Hres.
  1,2,4: erewrite get_google_news_articles_failed in Hrun
           by (rewrite Hres; reflexivity); discriminate.
  erewrite get_google_news_articles_found in Hrun by (done || exact Hres).
  injection Hrun as <- <-. by exists (r :: rs).
Qed.

Lemma article_info_keys (result : gmap string PyVal) :
  is_Some (article_info result !! "link")
  /\ is_Some (article_info result !! "title")
  /\ article_info result !! "full_text" = None.
Proof. unfold article_info. repeat split; by simplify_map_eq. Qed.

(** The articles kept are candidates, in their order, with a text attached. *)
Lemma kept_sublist (os : list (option string)) (articles : list Article) :
  Forall (fun a : Article => a !! "full_text" = None) articles ->
  (delete "full_text" <$> kept os articles) `sublist_of` articles.
Proof.
  revert os. induction articles as [|a l IH]; intros os Hall.
  - destruct os as [|[t|] os]; simpl; constructor.
  - apply Forall_cons in Hall as [Ha Hall].
    destruct os as [|[t|] os]; simpl.
    + apply sublist_nil_l.
    + rewrite delete_insert_id by done. apply sublist_skip. by apply IH.
    + apply sublist_cons. by apply IH.
Qed.

(** Each of them holds the trimmed text of the page fetched at its turn. *)
Lemma kept_extracted (env : Env) (h : list Event) (articles : list Article) :
  Forall (fun a : Article => is_Some (a !! "title") /\ is_Some (a !! "link"))
    articles ->
  Forall (extracted_in_run env (h ++ map fetch_of articles))
    (kept (attempts env h articles) articles).
Proof.
  revert h. induction articles as [|a l IH]; intros h Hall; simpl; [done|].
  apply Forall_cons in Hall as [[Htitle Hlink] Hall].
  specialize (IH (h ++ [fetch_of a]) Hall).
  rewrite <- app_assoc in IH. simpl in IH.
  unfold extraction_at.
  destruct (newspaper env h (dict_get a "link")) as [e|raw] eqn:Hpage;
    [exact IH|].
  destruct (truthy (strip raw)) eqn:Htext; [|exact IH].
  apply Forall_cons. split; [|exact IH].
  assert (fetch_of (<["full_text":=PyStr (strip raw)]> a) = fetch_of a) as Hfetch.
  { unfold fetch_of, dict_get. by rewrite lookup_insert_ne. }
  split.
  - rewrite lookup_insert_ne by done. exact Htitle.
  - exists h, (map fetch_of l), raw. rewrite Hfetch.
    split; [done|]. split; [|split].
    + unfold dict_get. rewrite lookup_insert_ne by done. exact Hpage.
    + by rewrite lookup_insert_eq.
    + rewrite strip_idemp. by apply truthy_true.
Qed.

(** C10 as amended. The list the loop hands on, from the records of the
    Search Client, is an order-preserving sublist of the search results with
    a full text attached to every article, at most 5 of them; every article
    has a title, and its full text is the trimmed text of the page fetched
    for its link during the run, not empty after trimming. So the text the
    extractor returns for a failed extraction is never attached: a failed
    candidate is skipped (the placeholder sentence can only be the body of a
    page itself). *)
Theorem prompt_articles_invariant (env : Env) (query : string)
    (serpapi_key : PyVal) (num_articles : Z) (s s1 s2 : State)
    (articles successful_articles : list Article) :
  get_google_news_articles env query serpapi_key num_articles s
  = (Return articles, s1) ->
  extraction_loop env 1 articles [] s1 = (Return successful_articles, s2) ->
  (delete "full_text" <$> successful_articles) `sublist_of` articles
  /\ length successful_articles <= 5
  /\ Forall (extracted_in_run env (net s2)) successful_articles
  /\ Forall extracted successful_articles.
Proof.
  intros Hsearch Hloop.
  apply get_google_news_articles_returns in Hsearch as (results & -> & _).
  assert (Forall (fun a : Article =>
            is_Some (a !! "link") /\ is_Some (a !! "title")
            /\ a !! "full_text" = None) (map article_info results)) as Hkeys.
  { apply Forall_fmap, Forall_true. intros r. apply article_info_keys. }
  destruct (extraction_loop_run env (map article_info results) 1 [] s1)
    as (s' & Hrun & Hnet & _).
  { eapply Forall_impl; [exact Hkeys|]. by intros a (? & _). }
  simpl in Hrun, Hnet. change (5 - 0) with 5 in Hrun, Hnet.
  set (os := attempts env (net s1) (map article_info results)) in *.
  set (k := examined 5 os) in *.
  rewrite Hrun in Hloop. injection Hloop as <- <-.
  assert (length (kept (take k os) (take k (map article_info results))) <= 5)
    as Hfive.
  { rewrite length_kept.
    - apply successes_examined.
    - pose proof (examined_le 5 os) as Hle.
      pose proof (length_attempts env (net s1) (map article_info results))
        as Hlen.
      fold os in Hlen. rewrite !length_take. lia. }
  remember (kept (take k os) (take k (map article_info results)))
    as kept_articles eqn:Hkept.
  unfold os in Hkept. rewrite attempts_take in Hkept.
  assert (Forall (extracted_in_run env (net s')) kept_articles) as Hext.
  { rewrite Hkept, Hnet. apply kept_extracted.
    apply Forall_take. eapply Forall_impl; [exact Hkeys|].
    by intros a (? & ? & _). }
  split; [|split; [exact Hfive|split; [exact Hext|]]].
  - rewrite Hkept. etrans; [|apply (sublist_take _ k)].
    apply kept_sublist, Forall_take.
    eapply Forall_impl; [exact Hkeys|]. by intros a (_ & _ & ?).
  - eapply Forall_impl; [exact Hext|].
    intros a (Htitle & _ & _ & raw & _ & _ & Htext & _).
    split; [exact Htitle|]. by rewrite Htext.
Qed.

Lemma prompt_articles_invariant_witness :
  exists successful_articles s2,
    extraction_loop (Samples.some_pages Samples.five_results) 1
      (map article_info Samples.five_results) []
      {| stdout := []; stdin := [];
         net := [EvSearch (search_params "acme" (PyStr "serp") 10)] |}
    = (Return successful_articles, s2)
    /\ (delete "full_text" <$> successful_articles)
       `sublist_of` map article_info Samples.five_results
    /\ length successful_articles <= 5.
Proof.
  destruct (extraction_loop_run (Samples.some_pages Samples.five_results)
              (map article_info Samples.five_results) 1 []
              {| stdout := []; stdin := [];
                 net := [EvSearch (search_params "acme" (PyStr "serp") 10)] |})
    as (s2 & Hloop & _).
  { repeat constructor; by eexists. }
  destruct (prompt_articles_invariant (Samples.some_pages Samples.five_results)
              "acme" (PyStr "serp") 10 (Samples.console []) _ s2 _ _
              (get_google_news_articles_found
                 (Samples.some_pages Samples.five_results) "acme" (PyStr "serp") 10
                 (Samples.console []) Samples.five_results eq_refl
                 ltac:(discriminate))
              Hloop)
    as (Hsub & Hfive & _).
  eexists _, s2. split; [exact Hloop|]. split; [exact Hsub|exact Hfive].
Defined.

(** C10 as stated fails: a page whose body is the sentence "Content could
    not be retrieved." is extracted with success, and that sentence is then
    the content of the article in the prompt. *)
Lemma placeholder_text_can_reach_prompt :
  ~ (forall (env : Env) (query : string) (serpapi_key : PyVal)
       (num_articles : Z) (s s1 s2 : State)
       (articles successful_articles : list Article),
       get_google_news_articles env query serpapi_key num_articles s
       = (Return articles, s1) ->
       extraction_loop env 1 articles [] s1 = (Return successful_articles, s2) ->
       (delete "full_text" <$> successful_articles) `sublist_of` articles
       /\ Forall (fun a : Article =>
                    exists text,
                      a !! "full_text" = Some (PyStr text)
                      /\ strip text <> ""
                      /\ text <> "Content could not be retrieved.")
            successful_articles).
Proof.
  intros Hclaim.
  pose proof (get_google_news_articles_found Samples.placeholder_pages "acme"
                (PyStr "serp") 10 (Samples.console [])
                [Samples.result "A" "u1"] eq_refl ltac:(discriminate))
    as Hsearch.
  destruct (extraction_loop_run Samples.placeholder_pages
              (map article_info [Samples.result "A" "u1"]) 1 []
              {| stdout := []; stdin := [];
                 net := [EvSearch (search_params "acme" (PyStr "serp") 10)] |})
    as (s2 & Hloop & _).
  { repeat constructor; by eexists. }
  destruct (Hclaim _ _ _ _ _ _ _ _ _ Hsearch Hloop) as [_ Hall].
  simpl in Hall.
  apply Forall_cons in Hall as [(text & Htext & _ & Hne) _].
  rewrite lookup_insert_eq in Htext. by injection Htext as <-.
Qed.

(** ** Whole runs *)

(** Three results, all extracted: the run warns that only 3 articles were
    retrieved, sends one prompt for 3 articles and returns. *)
Example run_three_articles :
  exists s',
    main (Samples.all_pages (take 3 Samples.five_results))
      (Samples.console ["Acme Corp stock"])
    = (Return tt, s')
    /\ (LF +:+ "Only 3 articles were successfully retrieved." +:+ LF +:+ LF)
       ∈ stdout s'
    /\ length (net s') = 5
    /\ last (stdout s') = Some (LF +:+ "-----------------------" +:+ LF +:+ LF).
Proof.
  eexists. split; [vm_compute; reflexivity|]. simpl.
  split; [set_solver|]. split; reflexivity.
Qed.

(** An outdated client library: the error is reported in two lines and the
    run ends with exit code 1; no chat call is made. *)
Example run_old_client :
  send_to_gpt Samples.old_client "prompt" (PyStr "sk") (Samples.console [])
  = (SysExit 1,
     {| stdout :=
          ["AttributeError: module 'openai' has no attribute 'ChatCompletion'"
           +:+ LF;
           "Please ensure the 'openai' package is up-to-date." +:+ LF];
        stdin := [];
        net := [] |}).
Proof. reflexivity. Qed.

(** No search result: one message, exit code 1, no fetch. *)
Example run_no_results :
  main (Samples.all_pages []) (Samples.console ["acme"])
  = (SysExit 1,
     {| stdout :=
          ["Enter your search query for Google News: ";
           LF +:+ "Fetching up to 10 news articles..." +:+ LF +:+ LF;
           "No news articles found for the given query." +:+ LF];
        stdin := [];
        net := [EvSearch (search_params "acme" (PyStr "serp") 10)] |}).
Proof. reflexivity. Qed.

(** * Further properties of the script *)

(** ** Trimming *)

Lemma append_nil_l (s : string) : "" +:+ s = s.
Proof. reflexivity. Qed.

Lemma append_cons (c : ascii) (s t : string) :
  String c s +:+ t = String c (s +:+ t).
Proof. reflexivity. Qed.

Lemma lstrip_empty (s : string) : lstrip s = "" <-> all_space s = true.
Proof.
  induction s as [|c r IH]; simpl; [done|].
  destruct (isspace c); simpl; [exact IH|]. split; discriminate.
Qed.

Lemma rstrip_empty (s : string) : rstrip s = "" <-> all_space s = true.
Proof.
  induction s as [|c r IH]; simpl; [done|].
  destruct (rstrip r) as [|c' r'] eqn:Hr.
  - destruct (isspace c); simpl; [|split; discriminate].
    split; intros _; [by apply IH|done].
  - split; [discriminate|]. intros [_ Hall]%andb_prop.
    apply IH in Hall. discriminate.
Qed.

Lemma strip_empty (s : string) : strip s = "" <-> all_space s = true.
Proof.
  unfold strip. rewrite <- lstrip_empty.
  destruct (lstrip_head s) as [-> | (c & r & -> & Hc)]; [done|].
  rewrite rstrip_cons by done. split; discriminate.
Qed.

Lemma lstrip_split (s : string) :
  exists pre, s = pre +:+ lstrip s /\ all_space pre = true.
Proof.
  induction s as [|c r (pre & Hpre & Hall)]; simpl; [by exists ""|].
  destruct (isspace c) eqn:Hc; [|by exists ""].
  exists (String c pre). simpl. rewrite Hc, Hall. split; [|done].
  by rewrite append_cons, <- Hpre.
Qed.

Lemma rstrip_split (s : string) :
  exists post, s = rstrip s +:+ post /\ all_space post = true.
Proof.
  induction s as [|c r (post & Hpost & Hall)]; simpl; [by exists ""|].
  destruct (rstrip r) as [|c' r'] eqn:Hr.
  - rewrite append_nil_l in Hpost. subst post.
    destruct (isspace c) eqn:Hc.
    + exists (String c r). simpl. by rewrite Hc, Hall.
    + exists r. by rewrite append_cons, append_nil_l.
  - exists post. by rewrite append_cons, <- Hpost.
Qed.

Lemma rstrip_last (s : string) :
  rstrip s <> "" ->
  exists c, last_char (rstrip s) = Some c /\ isspace c = false.
Proof.
  induction s as [|c r IH]; simpl; [done|].
  destruct (rstrip r) as [|c' r'] eqn:Hr.
  - destruct (isspace c) eqn:Hc; [done|]. intros _. by exists c.
  - intros _. destruct IH as (c0 & Hlast & Hc0); [done|].
    exists c0. split; [|done]. exact Hlast.
Qed.

Lemma strip_trimmed (s : string) : strip s <> "" -> trimmed (strip s).
Proof.
  intros Hne. split.
  - unfold strip in *.
    destruct (lstrip_head s) as [Hl | (c & r & Hl & Hc)]; rewrite Hl in *;
      [done|].
    rewrite rstrip_cons by done. by exists c.
  - by apply rstrip_last.
Qed.

Lemma strip_split (s : string) :
  exists pre post,
    s = pre +:+ strip s +:+ post /\ all_space pre = true /\ all_space post = true.
Proof.
  destruct (lstrip_split s) as (pre & Hpre & Hallpre).
  destruct (rstrip_split (lstrip s)) as (post & Hpost & Hallpost).
  exists pre, post. split; [|done].
  unfold strip. by rewrite <- Hpost.
Qed.

(** ** The Query Collector, character by character *)

(** X1. [get_user_query] reads one line. When every character of the line
    is whitespace (the empty line included) it prints "Search query cannot be
    empty." and ends with [sys.exit(1)]. Otherwise it returns the line
    without the whitespace at its two ends: the query neither starts nor ends
    with whitespace, and what lies between is untouched. *)
Theorem get_user_query_trims (s : State) (line : string) (rest : list string) :
  stdin s = line :: rest ->
  (all_space line = true ->
     get_user_query s
     = (SysExit 1,
        {| stdout := stdout s ++ ["Enter your search query for Google News: ";
                                  "Search query cannot be empty." +:+ LF];
           stdin := rest; net := net s |}))
  /\ (all_space line = false ->
      exists query pre post,
        get_user_query s
        = (Return query,
           {| stdout := stdout s ++ ["Enter your search query for Google News: "];
              stdin := rest; net := net s |})
        /\ line = pre +:+ query +:+ post
        /\ all_space pre = true /\ all_space post = true
        /\ trimmed query).
Proof.
  intros Hin. unfold get_user_query. run. rewrite Hin. split.
  - intros Hall. apply strip_empty in Hall. rewrite Hall. simpl.
    by rewrite <- app_assoc.
  - intros Hall.
    assert (strip line <> "") as Hne.
    { intros Hempty%strip_empty. congruence. }
    destruct (strip_split line) as (pre & post & Hsplit & Hpre & Hpost).
    exists (strip line), pre, post.
    pose proof Hne as Htruthy. apply truthy_true in Htruthy. rewrite Htruthy.
    simpl. repeat split; try done; by apply strip_trimmed.
Qed.

Lemma get_user_query_trims_witness :
  exists query pre post,
    get_user_query (Samples.console ["  Acme Corp stock "])
    = (Return query,
       {| stdout := ["Enter your search query for Google News: "];
          stdin := []; net := [] |})
    /\ "  Acme Corp stock " = pre +:+ query +:+ post
    /\ trimmed query.
Proof.
  destruct (proj2 (get_user_query_trims (Samples.console ["  Acme Corp stock "])
                     "  Acme Corp stock " [] eq_refl) eq_refl)
    as (query & pre & post & Hrun & Hsplit & _ & _ & Htrim).
  by exists query, pre, post.
Defined.

(** ** The Credential Resolver *)

(** X2. When both variables are set in the environment to non-empty values,
    [get_api_keys] returns these values as they are (not trimmed) and touches
    nothing: no prompt is printed, no line is read, no call is made. *)
Theorem get_api_keys_from_environment (env : Env) (s : State)
    (serpapi_key openai_api_key : string) :
  environ env !! "SERPAPI_API_KEY" = Some serpapi_key ->
  serpapi_key <> "" ->
  environ env !! "OPENAI_API_KEY" = Some openai_api_key ->
  openai_api_key <> "" ->
  get_api_keys env s = (Return (PyStr serpapi_key, PyStr openai_api_key), s).
Proof.
  intros Hs Hsne Ho Hone. unfold get_api_keys, os_getenv. rewrite Hs, Ho.
  apply truthy_true in Hsne, Hone. simpl. by rewrite Hsne, Hone.
Qed.

Lemma get_api_keys_from_environment_witness :
  get_api_keys (Samples.all_pages []) (Samples.console ["unread"])
  = (Return (PyStr "serp", PyStr "sk"), Samples.console ["unread"]).
Proof.
  apply (get_api_keys_from_environment (Samples.all_pages [])
           (Samples.console ["unread"]) "serp" "sk"); done.
Defined.

(** X3. When neither variable holds a non-empty value (each is unset, or set
    to the empty string), [get_api_keys] asks for the SerpApi key first and
    the OpenAI key second, and returns the two lines typed, each trimmed; a
    blank line gives an empty key, which is accepted. *)
Theorem get_api_keys_prompts (env : Env) (s : State) (line1 line2 : string)
    (rest : list string) :
  environ env !! "SERPAPI_API_KEY" = None
  \/ environ env !! "SERPAPI_API_KEY" = Some "" ->
  environ env !! "OPENAI_API_KEY" = None
  \/ environ env !! "OPENAI_API_KEY" = Some "" ->
  stdin s = line1 :: line2 :: rest ->
  get_api_keys env s
  = (Return (PyStr (strip line1), PyStr (strip line2)),
     {| stdout := stdout s ++ ["Enter your SerpApi API Key: ";
                               "Enter your OpenAI API Key: "];
        stdin := rest; net := net s |}).
Proof.
  intros Hs Ho Hin. unfold get_api_keys, os_getenv.
  destruct Hs as [-> | ->], Ho as [-> | ->]; run; rewrite Hin; simpl;
    by rewrite <- app_assoc.
Qed.

Lemma get_api_keys_prompts_witness :
  get_api_keys MoreSamples.no_keys (Samples.console [" serp-key "; ""; "acme"])
  = (Return (PyStr "serp-key", PyStr ""),
     {| stdout := ["Enter your SerpApi API Key: "; "Enter your OpenAI API Key: "];
        stdin := ["acme"]; net := [] |}).
Proof.
  rewrite (get_api_keys_prompts MoreSamples.no_keys
             (Samples.console [" serp-key "; ""; "acme"]) " serp-key " "" ["acme"]);
    [reflexivity| |left|]; reflexivity || (right; reflexivity).
Defined.

(** X4. Whatever the run, a key the environment holds (set and not empty) is
    the one [get_api_keys] returns, and a key it returns is never [None]. *)
Theorem get_api_keys_environment_wins (env : Env) (s s1 : State)
    (keys : PyVal * PyVal) :
  get_api_keys env s = (Return keys, s1) ->
  (forall v, environ env !! "SERPAPI_API_KEY" = Some v -> v <> "" ->
             fst keys = PyStr v)
  /\ (forall v, environ env !! "OPENAI_API_KEY" = Some v -> v <> "" ->
                snd keys = PyStr v)
  /\ fst keys <> PyNone /\ snd keys <> PyNone.
Proof.
  unfold get_api_keys, os_getenv. run.
  destruct (environ env !! "SERPAPI_API_KEY") as [v1|] eqn:H1;
    destruct (environ env !! "OPENAI_API_KEY") as [v2|] eqn:H2; simpl;
    try destruct (truthy v1) eqn:Ht1; try destruct (truthy v2) eqn:Ht2; simpl;
    destruct (stdin s) as [|l1 [|l2 rest]]; simpl; intros [= <- <-]; simpl;
    repeat split; try done; intros v [= <-] Hne%truthy_true; congruence.
Qed.

Lemma get_api_keys_environment_wins_witness :
  exists keys s1,
    get_api_keys (Samples.all_pages []) (Samples.console []) = (Return keys, s1)
    /\ fst keys = PyStr "serp".
Proof.
  eexists _, _. split; [reflexivity|].
  apply (proj1 (get_api_keys_environment_wins (Samples.all_pages [])
                  (Samples.console []) _ _ eq_refl) "serp"); done.
Defined.

(** ** The stages of [main] *)

Lemma get_api_keys_cases (env : Env) (s : State) :
  exists s1,
    net s1 = net s
    /\ ((exists keys, get_api_keys env s = (Return keys, s1))
        \/ (exists m, get_api_keys env s = (Raise (EOFError m), s1)
                      /\ stdin s1 = [])).
Proof.
  unfold get_api_keys. run.
  destruct (py_not (os_getenv env "SERPAPI_API_KEY")),
           (py_not (os_getenv env "OPENAI_API_KEY"));
    destruct (stdin s) as [|l1 [|l2 rest]] eqn:Hin; simpl;
    eexists; (split; [|(left; eexists; reflexivity)
                       || (right; eexists; split; [reflexivity|done])]);
    done.
Qed.

Lemma get_user_query_cases (s : State) :
  exists s1,
    net s1 = net s
    /\ ((exists query, get_user_query s = (Return query, s1))
        \/ get_user_query s = (SysExit 1, s1)
        \/ (exists m, get_user_query s = (Raise (EOFError m), s1)
                      /\ stdin s1 = [])).
Proof.
  unfold get_user_query. run.
  destruct (stdin s) as [|line rest] eqn:Hin; simpl.
  - eexists. split; [|right; right; eexists; split; [reflexivity|done]]. done.
  - destruct (truthy (strip line)); simpl; eexists.
    + split; [|left; eexists; reflexivity]. done.
    + split; [|right; left; reflexivity]. done.
Qed.

Lemma send_to_gpt_cases (env : Env) (prompt : string) (openai_api_key : PyVal)
    (s : State) :
  exists s',
    (send_to_gpt env prompt openai_api_key s = (SysExit 1, s')
     /\ net s' = net s /\ openai_ChatCompletion env = false)
    \/ (net s' = net s ++ [EvChat (chat_request prompt openai_api_key)]
        /\ (send_to_gpt env prompt openai_api_key s = (SysExit 1, s')
            \/ exists choice others raw,
                 chat_completion env (net s) (chat_request prompt openai_api_key)
                 = ChatResponse (choice :: others)
                 /\ message_content choice = PyStr raw
                 /\ send_to_gpt env prompt openai_api_key s
                    = (Return (strip raw), s')
                 /\ stdout s' = stdout s)).
Proof.
  unfold send_to_gpt, ChatCompletion_create.
  fold (chat_request prompt openai_api_key).
  destruct (openai_ChatCompletion env); run; [|eexists; by left].
  destruct (chat_completion env (net s) (chat_request prompt openai_api_key))
    as [e|[|choice others]] eqn:Hc; simpl.
  - destruct e; simpl; eexists; right; (split; [|left; reflexivity]); done.
  - eexists; right; (split; [|left; reflexivity]); done.
  - destruct (message_content choice) as [|raw] eqn:Hm; simpl.
    + eexists; right; (split; [|left; reflexivity]); done.
    + eexists. right. split; [|right; by exists choice, others, raw]. done.
Qed.

Lemma examined_ge (need : nat) (os : list (option string)) :
  Nat.min need (length os) <= examined need os.
Proof.
  revert need. induction os as [|[t|] os IH]; intros [|need]; simpl; try lia.
  - specialize (IH need). lia.
  - specialize (IH (S need)). lia.
Qed.

Lemma extracted_in_run_extracted (env : Env) (log : list Event) (a : Article) :
  extracted_in_run env log a -> extracted a.
Proof.
  intros (Htitle & _ & _ & raw & _ & _ & Htext & _).
  split; [exact Htitle|]. by rewrite Htext.
Qed.

Lemma prepare_prompt_returns (articles : list Article) :
  Forall extracted articles -> exists prompt, prepare_prompt articles = Return prompt.
Proof.
  intros Hall. unfold prepare_prompt.
  rewrite (prepare_prompt_loop_blocks articles 0) by done. simpl. by eexists.
Qed.

(** The loop over the records of the Search Client. *)
Lemma extraction_loop_results (env : Env) (results : list (gmap string PyVal))
    (s : State) :
  results <> [] ->
  exists k s',
    1 <= k <= length results
    /\ Nat.min 5 (length results) <= k
    /\ let articles := take k (map article_info results) in
       let successful := kept (attempts env (net s) articles) articles in
       extraction_loop env 1 (map article_info results) [] s
       = (Return successful, s')
       /\ net s' = net s ++ map fetch_of articles
       /\ stdin s' = stdin s
       /\ length successful <= 5
       /\ Forall (extracted_in_run env (net s')) successful.
Proof.
  intros Hne.
  assert (Forall (fun a : Article =>
            is_Some (a !! "title") /\ is_Some (a !! "link"))
            (map article_info results)) as Hkeys.
  { apply Forall_fmap, Forall_true. intros r.
    destruct (article_info_keys r) as (? & ? & _). done. }
  destruct (extraction_loop_run env (map article_info results) 1 [] s)
    as (s' & Hrun & Hnet & Hin).
  { eapply Forall_impl; [exact Hkeys|]. by intros a [_ ?]. }
  simpl in Hrun, Hnet. change (5 - 0) with 5 in Hrun, Hnet.
  set (os := attempts env (net s) (map article_info results)) in *.
  pose proof (length_attempts env (net s) (map article_info results)) as Hlen.
  fold os in Hlen. rewrite length_map in Hlen.
  pose proof (examined_le 5 os) as Hle.
  pose proof (examined_ge 5 os) as Hge.
  assert (1 <= length results) as Hpos.
  { destruct results; [done|]. simpl. lia. }
  exists (examined 5 os), s'. split; [lia|]. split; [lia|]. simpl.
  unfold os in Hrun at 2. rewrite attempts_take in Hrun.
  split; [exact Hrun|]. split; [exact Hnet|]. split; [exact Hin|]. split.
  - rewrite <- attempts_take. fold os. rewrite length_kept.
    + apply successes_examined.
    + rewrite !length_take, length_map. lia.
  - rewrite Hnet. apply kept_extracted. by apply Forall_take.
Qed.

(** Every way a run of [main] can go. *)
Lemma main_paths (env : Env) (s : State) :
  exists o s',
    main env s = (o, s')
    /\ ((net s' = net s
         /\ (o = SysExit 1 \/ exists m, o = Raise (EOFError m) /\ stdin s' = [])
         /\ ((exists m, get_api_keys env s = (Raise (EOFError m), s'))
             \/ exists keys s1,
                  get_api_keys env s = (Return keys, s1)
                  /\ forall query s2,
                       get_user_query s1 <> (Return query, s2)))
        \/ exists keys query s1 s2,
             get_api_keys env s = (Return keys, s1)
             /\ get_user_query s1 = (Return query, s2)
             /\ let p := search_params query (fst keys) 10 in
             (o = SysExit 1
              /\ net s' = net s ++ [EvSearch p]
              /\ is_Some (search_failure (google_search env (net s) p)))
             \/ exists results k,
                  google_search env (net s) p = ApiDict (Some results)
                  /\ 1 <= k <= length results
                  /\ Nat.min 5 (length results) <= k
                  /\ let articles := take k (map article_info results) in
                     let log := net s ++ EvSearch p :: map fetch_of articles in
                     let successful :=
                       kept (attempts env (net s ++ [EvSearch p]) articles)
                         articles in
                     length successful <= 5
                     /\ Forall (extracted_in_run env log) successful
                     /\ ((o = SysExit 1 /\ successful = [] /\ net s' = log)
                         \/ exists prompt,
                              successful <> []
                              /\ prepare_prompt successful = Return prompt
                              /\ let r := chat_request prompt (snd keys) in
                                 (o = SysExit 1 /\ net s' = log
                                  /\ openai_ChatCompletion env = false)
                                 \/ (net s' = log ++ [EvChat r]
                                     /\ (o = SysExit 1
                                         \/ exists choice others raw out,
                                              chat_completion env log r
                                              = ChatResponse (choice :: others)
                                              /\ message_content choice
                                                 = PyStr raw
                                              /\ o = Return tt
                                              /\ stdout s'
                                                 = out ++ framed (strip raw))))).
Proof.
  unfold main.
  destruct (get_api_keys_cases env s) as (s1 & Hnet1 & [[keys Hk]|(m & Hk & Hin)]);
    unfold bind at 1; rewrite Hk.
  2: { eexists _, _. split; [reflexivity|]. left. split; [done|].
       split; [right; eauto|]. left. eauto. }
  destruct (get_user_query_cases s1)
    as (s2 & Hnet2 & [[query Hq]|[Hq|(m & Hq & Hin)]]);
    unfold bind at 1; rewrite Hq.
  2: { eexists _, _. split; [reflexivity|]. left. split; [congruence|].
       split; [by left|]. right. exists keys, s1. split; [done|].
       intros query s2' Hq'. rewrite Hq in Hq'. discriminate. }
  2: { eexists _, _. split; [reflexivity|]. left. split; [congruence|].
       split; [right; eauto|]. right. exists keys, s1. split; [done|].
       intros query s2' Hq'. rewrite Hq in Hq'. discriminate. }
  unfold bind at 1. unfold print at 1. cbv beta iota. unfold bind at 1.
  set (p := search_params query (fst keys) 10).
  assert (net s2 = net s) as Hnet by congruence.
  destruct (search_failure (google_search env (net s) p)) as [msg|] eqn:Hfail.
  { erewrite get_google_news_articles_failed
      by (simpl; rewrite Hnet; exact Hfail).
    eexists _, _. split; [reflexivity|]. right. exists keys, query, s1, s2.
    split; [done|]. split; [done|]. left.
    simpl. fold p. rewrite Hnet, Hfail. by eauto. }
  destruct (google_search env (net s) p) as [e|[[|r rs]|]] eqn:Hres;
    try discriminate.
  erewrite get_google_news_articles_found;
    [|simpl; rewrite Hnet; exact Hres|done].
  set (s3 := {| stdout := _; stdin := _; net := _ |}).
  destruct (extraction_loop_results env (r :: rs) s3)
    as (k & s4 & Hk1 & Hk5 & Hloop & Hnet4 & _ & Hfive & Hext); [done|].
  unfold bind at 1. rewrite Hloop.
  assert (net s3 = net s ++ [EvSearch p]) as Hnet3.
  { unfold s3. simpl. by rewrite Hnet. }
  rewrite Hnet3 in *.
  assert (net s4 = net s ++ EvSearch p
                     :: map fetch_of (take k (map article_info (r :: rs))))
    as Hlog.
  { rewrite Hnet4. by rewrite <- app_assoc. }
  set (articles := take k (map article_info (r :: rs))) in *.
  remember (kept (attempts env (net s ++ [EvSearch p]) articles) articles)
    as successful eqn:Hsucc.
  rewrite Hlog in Hext.
  destruct successful as [|a l].
  { eexists _, _. split; [reflexivity|]. right. exists keys, query, s1, s2.
    split; [done|]. split; [done|]. right.
    exists (r :: rs), k. fold p articles. cbv zeta. rewrite <- Hsucc.
    split; [done|]. split; [done|]. split; [done|]. simpl.
    split; [lia|]. split; [done|]. left. by rewrite Hlog. }
  destruct (prepare_prompt_returns (a :: l)) as [prompt Hprompt].
  { eapply Forall_impl; [exact Hext|]. intros ?. apply extracted_in_run_extracted. }
  unfold bind at 1. unfold report_extraction at 1.
  assert (exists s5, (if Nat.ltb (length (a :: l)) 5
                      then print (LF +:+ "Only " +:+ pretty (length (a :: l))
                                  +:+ " articles were successfully retrieved."
                                  +:+ LF)
                      else print (LF +:+ "Successfully retrieved 5 articles."
                                  +:+ LF)) s4 = (Return tt, s5)
                     /\ net s5 = net s4) as (s5 & -> & Hnet5).
  { destruct (Nat.ltb (length (a :: l)) 5); by eexists. }
  unfold bind at 1. unfold lift at 1. rewrite Hprompt.
  unfold bind at 1. unfold print at 1. cbv beta iota.
  set (s6 := {| stdout := _; stdin := _; net := net s5 |}).
  destruct (send_to_gpt_cases env prompt (snd keys) s6)
    as (s7 & [(Hgpt & Hnet7 & Hold)
             |(Hnet7 & [Hgpt|(choice & others & raw & Hchat & Hmsg & Hgpt & Hout)])]);
    unfold bind at 1; rewrite Hgpt.
  - eexists _, _. split; [reflexivity|]. right. exists keys, query, s1, s2.
    split; [done|]. split; [done|]. right.
    exists (r :: rs), k. fold p articles. cbv zeta. rewrite <- Hsucc.
    split; [done|]. split; [done|]. split; [done|]. simpl.
    split; [simpl in Hfive; lia|]. split; [done|]. right. exists prompt.
    split; [done|]. split; [done|]. left. split; [done|]. split; [|done].
    rewrite Hnet7. unfold s6. simpl. by rewrite Hnet5, Hlog.
  - eexists _, _. split; [reflexivity|]. right. exists keys, query, s1, s2.
    split; [done|]. split; [done|]. right.
    exists (r :: rs), k. fold p articles. cbv zeta. rewrite <- Hsucc.
    split; [done|]. split; [done|]. split; [done|]. simpl.
    split; [simpl in Hfive; lia|]. split; [done|]. right. exists prompt.
    split; [done|]. split; [done|]. right. split; [|by left].
    rewrite Hnet7. unfold s6. simpl. by rewrite Hnet5, Hlog.
  - eexists _, _. split; [reflexivity|]. right. exists keys, query, s1, s2.
    split; [done|]. split; [done|]. right.
    exists (r :: rs), k. fold p articles. cbv zeta. rewrite <- Hsucc.
    split; [done|]. split; [done|]. split; [done|]. simpl.
    split; [simpl in Hfive; lia|]. split; [done|]. right. exists prompt.
    split; [done|]. split; [done|]. right. split.
    + unfold display_gpt_response. run. rewrite Hnet7. unfold s6. simpl.
      by rewrite Hnet5, Hlog.
    + right. exists choice, others, raw, (stdout s7).
      split; [|split; [done|split; [done|]]].
      * rewrite <- Hchat. unfold s6. simpl. by rewrite Hnet5, Hlog.
      * unfold display_gpt_response, framed. run.
        by rewrite <- !app_assoc.
Qed.

(** ** Whole runs of [main] *)

(** X5. However a run of [main] goes, it ends in one of three ways: it
    returns, it ends with [sys.exit(1)], or [EOFError] escapes because
    standard input ran out. No [KeyError], [IndexError] or [AttributeError]
    escapes, and no other exit code is used. *)
Theorem main_ends (env : Env) (s : State) :
  exists o s',
    main env s = (o, s')
    /\ (o = Return tt \/ o = SysExit 1
        \/ exists m, o = Raise (EOFError m) /\ stdin s' = []).
Proof.
  destruct (main_paths env s) as (o & s' & Hrun & Hpath).
  exists o, s'. split; [exact Hrun|].
  destruct Hpath as [(_ & [->|Heof] & _)|(keys & query & s1 & s2 & Hkeys & Hquery & Hpath)]; [by eauto..|].
  cbv zeta in Hpath.
  destruct Hpath as [(-> & _)|(results & k & _ & _ & _ & _ & _ & Hpath)];
    [by eauto|].
  destruct Hpath as [(-> & _)|(prompt & _ & _ & Hpath)]; [by eauto|].
  destruct Hpath as [(-> & _)|(_ & [->|(? & ? & ? & ? & _ & _ & -> & _)])];
    by eauto.
Qed.

(** X6. With nothing left on standard input, [main] stops with [EOFError]
    at its first prompt, before any network call. *)
Theorem main_end_of_input (env : Env) (s : State) :
  stdin s = [] ->
  exists s',
    main env s = (Raise (EOFError "EOF when reading a line"), s')
    /\ net s' = net s.
Proof.
  intros Hin. unfold main, get_api_keys, get_user_query. run.
  destruct (py_not (os_getenv env "SERPAPI_API_KEY")),
           (py_not (os_getenv env "OPENAI_API_KEY"));
    simpl; rewrite Hin; simpl; by eexists.
Qed.

Lemma main_end_of_input_witness :
  exists s',
    main (Samples.all_pages Samples.five_results) (Samples.console [])
    = (Raise (EOFError "EOF when reading a line"), s')
    /\ net s' = [].
Proof.
  exact (main_end_of_input (Samples.all_pages Samples.five_results)
           (Samples.console []) eq_refl).
Defined.

(** X7. The network calls of a run of [main], in order, are: none; or one
    search (engine google, news tab, 10 results asked) followed by fetches
    only; or the search, at least one fetch, and one chat call, which is then
    the last call. When [main] returns, the chat call was made. *)
Theorem main_network_calls (env : Env) (s : State) :
  exists o s' trace,
    main env s = (o, s')
    /\ net s' = net s ++ trace
    /\ (trace = []
        \/ exists p fetches tail,
             trace = EvSearch p :: fetches ++ tail
             /\ sp_engine p = "google" /\ sp_tbm p = "nws" /\ sp_num p = 10%Z
             /\ Forall is_fetch fetches
             /\ (tail = [] \/ fetches <> [] /\ exists r, tail = [EvChat r]))
    /\ (o = Return tt -> exists r, last trace = Some (EvChat r)).
Proof.
  destruct (main_paths env s) as (o & s' & Hrun & Hpath).
  exists o, s'.
  destruct Hpath as [(Hnet & Ho & _)|(keys & query & s1 & s2 & Hkeys & Hquery & Hpath)].
  { exists []. rewrite app_nil_r. repeat split; [done..|by left|].
    intros ->. by destruct Ho as [|(? & ? & _)]. }
  cbv zeta in Hpath.
  set (p := search_params query (fst keys) 10) in *.
  destruct Hpath
    as [(-> & Hnet & _)|(results & k & _ & Hk & _ & _ & _ & Hpath)].
  { exists [EvSearch p]. repeat split; [done..| |done].
    right. exists p, [], []. repeat split; by eauto. }
  set (articles := take k (map article_info results)) in *.
  assert (Forall is_fetch (map fetch_of articles)) as Hfetch.
  { apply Forall_fmap, Forall_true. by intros a. }
  destruct Hpath as [(-> & _ & Hnet)|(prompt & _ & _ & Hpath)].
  { exists (EvSearch p :: map fetch_of articles).
    repeat split; [done..| |done].
    right. exists p, (map fetch_of articles), [].
    rewrite app_nil_r. repeat split; by eauto. }
  destruct Hpath as [(-> & Hnet & _)|(Hnet & Ho)].
  { exists (EvSearch p :: map fetch_of articles).
    repeat split; [done..| |done].
    right. exists p, (map fetch_of articles), [].
    rewrite app_nil_r. repeat split; by eauto. }
  exists (EvSearch p :: map fetch_of articles
          ++ [EvChat (chat_request prompt (snd keys))]).
  split; [done|]. split; [by rewrite Hnet, <- app_assoc|]. split.
  - right. eexists p, (map fetch_of articles), _.
    repeat split; [done..|]. right. split; [|by eauto].
    unfold articles. destruct results as [|r rs]; [simpl in Hk; lia|].
    destruct k; [lia|]. done.
  - intros _. eexists.
    change (EvSearch p :: map fetch_of articles ++ ?l)
      with ((EvSearch p :: map fetch_of articles) ++ l).
    by rewrite last_snoc.
Qed.

(** X8. When [main] returns, the last call of the run is the chat call, it
    answered with at least one choice whose content is text, and the last
    three things printed are the reply frame: the separator line, the content
    of the first choice, trimmed, and the closing separator. *)
Theorem main_returns (env : Env) (s s' : State) :
  main env s = (Return tt, s') ->
  exists log r choice others raw out,
    net s' = log ++ [EvChat r]
    /\ chat_completion env log r = ChatResponse (choice :: others)
    /\ message_content choice = PyStr raw
    /\ stdout s'
       = out ++ [LF +:+ "--- GPT-4 Response ---" +:+ LF +:+ LF;
                 strip raw +:+ LF;
                 LF +:+ "-----------------------" +:+ LF +:+ LF].
Proof.
  intros Hmain.
  destruct (main_paths env s) as (o & s0 & Hrun & Hpath).
  rewrite Hmain in Hrun. injection Hrun as <- <-.
  destruct Hpath as [(_ & [?|(? & ? & _)] & _)|(keys & query & s1 & s2 & Hkeys & Hquery & Hpath)]; [done..|].
  cbv zeta in Hpath.
  destruct Hpath as [(? & _)|(results & k & _ & _ & _ & _ & _ & Hpath)]; [done|].
  destruct Hpath as [(? & _)|(prompt & _ & _ & Hpath)]; [done|].
  destruct Hpath as [(? & _)|(Hnet & Hpath)]; [done|].
  destruct Hpath as [?|(choice & others & raw & out & Hchat & Hmsg & _ & Hout)];
    [done|].
  eexists _, _, choice, others, raw, out.
  split; [exact Hnet|]. split; [exact Hchat|]. split; [exact Hmsg|].
  rewrite Hout. unfold framed. by rewrite !append_assoc.
Qed.

Lemma main_returns_witness :
  exists s' log r,
    main MoreSamples.one_page (Samples.console ["acme"]) = (Return tt, s')
    /\ net s' = log ++ [EvChat r]
    /\ last (stdout s') = Some (LF +:+ "-----------------------" +:+ LF +:+ LF).
Proof.
  destruct (main MoreSamples.one_page (Samples.console ["acme"]))
    as [o s'] eqn:Hrun.
  assert (o = Return tt) as ->.
  { apply (f_equal fst) in Hrun. vm_compute in Hrun. by subst o. }
  destruct (main_returns MoreSamples.one_page (Samples.console ["acme"]) s' Hrun)
    as (log & r & choice & others & raw & out & Hnet & _ & _ & Hout).
  exists s', log, r. split; [reflexivity|]. split; [exact Hnet|].
  rewrite Hout.
  change (out ++ [?a; ?b; ?c]) with (out ++ [a; b] ++ [c]).
  by rewrite app_assoc, last_snoc.
Defined.

(** X9. When the keys are read and the query line is not blank, the first
    network call of [main] is the news search for that line, trimmed, under
    the SerpApi key, asking for 10 results. *)
Theorem main_searches_trimmed_query (env : Env) (s s1 : State)
    (keys : PyVal * PyVal) (line : string) (rest : list string) :
  get_api_keys env s = (Return keys, s1) ->
  stdin s1 = line :: rest ->
  all_space line = false ->
  exists o s' later,
    main env s = (o, s')
    /\ net s'
       = net s ++ EvSearch {| sp_engine := "google"; sp_q := strip line;
                              sp_tbm := "nws"; sp_api_key := fst keys;
                              sp_num := 10 |} :: later.
Proof.
  intros Hkeys Hin Hline.
  assert (exists s2, get_user_query s1 = (Return (strip line), s2)) as [s2 Hquery].
  { unfold get_user_query. run. rewrite Hin.
    assert (truthy (strip line) = true) as ->; [|by eexists].
    apply truthy_true. intros Hempty%strip_empty. congruence. }
  destruct (main_paths env s) as (o & s' & Hrun & Hpath).
  exists o, s'.
  destruct Hpath as [(_ & _ & Hstop)|(keys' & query & s1' & s2' & Hk & Hq & Hpath)].
  { destruct Hstop as [[m Hm]|(keys' & s1' & Hk & Hnone)]; [congruence|].
    rewrite Hkeys in Hk. injection Hk as <- <-. by destruct (Hnone _ _ Hquery). }
  rewrite Hkeys in Hk. injection Hk as <- <-.
  rewrite Hquery in Hq. injection Hq as <- <-.
  cbv zeta in Hpath. fold (search_params (strip line) (fst keys) 10).
  destruct Hpath
    as [(_ & Hnet & _)|(results & k & _ & _ & _ & _ & _ & Hpath)]; [by eauto|].
  destruct Hpath as [(_ & _ & Hnet)|(prompt & _ & _ & Hpath)]; [by eauto|].
  destruct Hpath as [(_ & Hnet & _)|(Hnet & _)]; [by eauto|].
  eexists. split; [done|]. rewrite Hnet, <- app_assoc. reflexivity.
Qed.

Lemma main_searches_trimmed_query_witness :
  exists o s' later,
    main MoreSamples.one_page (Samples.console [" acme "]) = (o, s')
    /\ net s' = EvSearch (search_params "acme" (PyStr "serp") 10) :: later.
Proof.
  exact (main_searches_trimmed_query MoreSamples.one_page
           (Samples.console [" acme "]) (Samples.console [" acme "])
           (PyStr "serp", PyStr "sk") " acme " [] eq_refl eq_refl eq_refl).
Defined.

Lemma extracted_in_run_later (env : Env) (log more : list Event) (a : Article) :
  extracted_in_run env log a -> extracted_in_run env (log ++ more) a.
Proof.
  intros (Htitle & before & after & raw & -> & Hrest).
  split; [exact Htitle|]. exists before, (after ++ more), raw.
  split; [|exact Hrest]. by rewrite <- app_assoc.
Qed.

(** X10. Whenever a run of [main] makes a chat call, the user message of
    the request is the prompt [prepare_prompt] builds from between 1 and 5
    articles, each of them holding a title and the trimmed, non-empty text of
    a page fetched earlier in the same run; the system message is the fixed
    one. *)
Theorem main_prompt_contents (env : Env) (s s' : State) (o : Outcome unit)
    (trace : list Event) (r : ChatRequest) :
  main env s = (o, s') ->
  net s' = net s ++ trace ->
  EvChat r ∈ trace ->
  exists articles prompt,
    1 <= length articles <= 5
    /\ Forall (extracted_in_run env (net s')) articles
    /\ prepare_prompt articles = Return prompt
    /\ cr_messages r
       = [("system", "You are a helpful assistant."); ("user", prompt)].
Proof.
  intros Hmain Htrace Hin.
  destruct (main_paths env s) as (o0 & s0 & Hrun & Hpath).
  rewrite Hmain in Hrun. injection Hrun as <- <-.
  destruct Hpath as [(Hnet & _)|(keys & query & s1 & s2 & _ & _ & Hpath)].
  { rewrite Htrace in Hnet. rewrite <- (app_nil_r (net s)) in Hnet at 2.
    apply app_inv_head in Hnet. subst trace. by apply elem_of_nil in Hin. }
  cbv zeta in Hpath.
  destruct Hpath
    as [(_ & Hnet & _)|(results & k & _ & _ & _ & Hfive & Hext & Hpath)].
  { rewrite Htrace in Hnet. apply app_inv_head in Hnet. subst trace.
    apply list_elem_of_singleton in Hin. discriminate. }
  destruct Hpath as [(_ & _ & Hnet)|(prompt & Hne & Hprompt & Hpath)].
  { rewrite Htrace in Hnet. apply app_inv_head in Hnet. subst trace.
    apply elem_of_cons in Hin as [?|Hin]; [done|].
    apply list_elem_of_fmap in Hin as (a & ? & _). discriminate. }
  destruct Hpath as [(_ & Hnet & _)|(Hnet & _)].
  { rewrite Htrace in Hnet. apply app_inv_head in Hnet. subst trace.
    apply elem_of_cons in Hin as [?|Hin]; [done|].
    apply list_elem_of_fmap in Hin as (a & ? & _). discriminate. }
  rewrite Htrace, <- app_assoc in Hnet. apply app_inv_head in Hnet.
  subst trace. simpl in Hin.
  apply elem_of_cons in Hin as [?|Hin]; [done|].
  apply elem_of_app in Hin as [Hin|Hin].
  { apply list_elem_of_fmap in Hin as (a & ? & _). discriminate. }
  apply list_elem_of_singleton in Hin. injection Hin as ->.
  eexists _, prompt. split; [|split; [|split; [exact Hprompt|reflexivity]]].
  - split; [|exact Hfive].
    destruct (kept _ _); [done|]. simpl. lia.
  - rewrite Htrace. simpl.
    change (EvSearch ?p :: ?l ++ ?m) with ((EvSearch p :: l) ++ m).
    rewrite app_assoc.
    eapply Forall_impl; [exact Hext|]. intros a. apply extracted_in_run_later.
Qed.

Lemma main_prompt_contents_witness :
  exists articles prompt,
    1 <= length articles <= 5 /\ prepare_prompt articles = Return prompt.
Proof.
  assert (exists s' trace r,
            main MoreSamples.one_page (Samples.console ["acme"]) = (Return tt, s')
            /\ net s' = net (Samples.console ["acme"]) ++ trace
            /\ EvChat r ∈ trace)
    as (s' & trace & r & Hrun & Htrace & Hin).
  { eexists _, _, _. split; [vm_compute; reflexivity|].
    split; [reflexivity|].
    do 2 apply list_elem_of_further. apply list_elem_of_here. }
  destruct (main_prompt_contents MoreSamples.one_page (Samples.console ["acme"])
              s' (Return tt) trace r Hrun Htrace Hin)
    as (articles & prompt & Hlen & _ & Hprompt & _).
  by exists articles, prompt.
Defined.

Lemma kept_attempts_blank (env : Env) (h : list Event) (articles : list Article) :
  (forall h url raw, newspaper env h url = FetchText raw -> all_space raw = true) ->
  kept (attempts env h articles) articles = [].
Proof.
  intros Hblank. revert h. induction articles as [|a l IH]; intros h; simpl;
    [done|].
  unfold extraction_at.
  destruct (newspaper env h (dict_get a "link")) as [e|raw] eqn:Hpage;
    [apply IH|].
  apply Hblank, strip_empty in Hpage. rewrite Hpage. simpl. apply IH.
Qed.

(** X11. In a world where every page that can be fetched is blank (only
    whitespace, or nothing), [main] never returns and never calls the LLM:
    whatever else happens, no chat call is among its network calls. *)
Theorem main_needs_one_text (env : Env) (s : State) :
  (forall h url raw, newspaper env h url = FetchText raw -> all_space raw = true) ->
  exists o s' trace,
    main env s = (o, s')
    /\ net s' = net s ++ trace
    /\ o <> Return tt
    /\ forall r, EvChat r ∉ trace.
Proof.
  intros Hblank.
  destruct (main_paths env s) as (o & s' & Hrun & Hpath).
  exists o, s'.
  destruct Hpath as [(Hnet & Ho & _)|(keys & query & s1 & s2 & _ & _ & Hpath)].
  { exists []. rewrite app_nil_r. split; [exact Hrun|]. split; [exact Hnet|].
    split.
    - by destruct Ho as [->|(m & -> & _)].
    - intros r. apply not_elem_of_nil. }
  cbv zeta in Hpath.
  destruct Hpath
    as [(-> & Hnet & _)|(results & k & _ & _ & _ & _ & _ & Hpath)].
  { eexists. split; [exact Hrun|]. split; [exact Hnet|]. split; [done|].
    intros r Hin%list_elem_of_singleton. discriminate. }
  rewrite kept_attempts_blank in Hpath by done.
  destruct Hpath as [(-> & _ & Hnet)|(prompt & Hne & _)]; [|done].
  eexists. split; [exact Hrun|]. split; [exact Hnet|]. split; [done|].
  intros r [?|Hin]%elem_of_cons; [done|].
  apply list_elem_of_fmap in Hin as (a & ? & _). discriminate.
Qed.

Lemma main_needs_one_text_witness :
  exists o s' trace,
    main MoreSamples.dead_links (Samples.console ["acme"]) = (o, s')
    /\ net s' = trace
    /\ o <> Return tt.
Proof.
  destruct (main_needs_one_text MoreSamples.dead_links (Samples.console ["acme"]))
    as (o & s' & trace & Hrun & Hnet & Ho & _).
  - intros h url raw Hpage. discriminate.
  - exists o, s', trace.
    split; [exact Hrun|]. split; [exact Hnet|exact Ho].
Defined.

(** ** The Search Client, whatever the response *)

(** X12. No exception leaves [get_google_news_articles]. It makes exactly one
    search request and reads nothing from standard input; then either the
    response holds results and it returns one record per result, a non-empty
    list, printing nothing, or it prints one line and ends with
    [sys.exit(1)]. *)
Theorem get_google_news_articles_outcomes (env : Env) (query : string)
    (serpapi_key : PyVal) (num_articles : Z) (s : State) :
  exists o s',
    get_google_news_articles env query serpapi_key num_articles s = (o, s')
    /\ net s' = net s ++ [EvSearch {| sp_engine := "google"; sp_q := query;
                                      sp_tbm := "nws";
                                      sp_api_key := serpapi_key;
                                      sp_num := num_articles |}]
    /\ stdin s' = stdin s
    /\ ((exists articles,
           o = Return articles /\ articles <> []
           /\ Forall (fun a : Article =>
                        dom a = list_to_set ["title"; "link"; "source";
                                             "published_date"; "snippet"])
                articles
           /\ stdout s' = stdout s)
        \/ (o = SysExit 1 /\ exists line, stdout s' = stdout s ++ [line])).
Proof.
  fold (search_params query serpapi_key num_articles).
  destruct (search_failure
              (google_search env (net s)
                 (search_params query serpapi_key num_articles)))
    as [msg|] eqn:Hfail.
  - erewrite get_google_news_articles_failed by exact Hfail.
    eexists _, _. split; [reflexivity|]. simpl. repeat split; try done.
    right. by eauto.
  - destruct (google_search env (net s) _) as [e|[[|r rs]|]] eqn:Hres;
      try discriminate.
    erewrite get_google_news_articles_found by (done || exact Hres).
    eexists _, _. split; [reflexivity|]. split; [done|]. split; [done|].
    left. eexists. split; [reflexivity|]. split; [done|]. split; [|done].
    apply Forall_fmap, Forall_true. intros result.
    unfold article_info. cbn [Basics.compose list_to_set foldr].
    rewrite !dom_insert_L, dom_empty_L. set_solver.
Qed.

(** ** The Prompt Builder on incomplete articles *)

Lemma prepare_prompt_loop_app (good tail : list Article) (n : nat)
    (prompt : string) :
  Forall extracted good ->
  prepare_prompt_loop (S n) (good ++ tail) prompt
  = prepare_prompt_loop (S (n + length good)) tail
      (prompt +:+ concat_strings (imap (fun i => article_block (n + i)) good)).
Proof.
  revert n prompt. induction good as [|a l IH]; intros n prompt Hall.
  - simpl. by rewrite Nat.add_0_r, append_nil_r.
  - apply Forall_cons in Hall as [[[title Ht] [text Hf]] Hall].
    change (prepare_prompt_loop (S n) ((a :: l) ++ tail) prompt)
      with (prepare_prompt_loop (S n) (a :: l ++ tail) prompt).
    cbn [prepare_prompt_loop]. unfold getitem. rewrite Ht, Hf. simpl obind.
    rewrite IH by done. simpl length.
    replace (S n + length l) with (n + S (length l)) by lia. f_equal.
    rewrite imap_cons. simpl concat_strings.
    unfold article_block at 2, dict_get. rewrite Ht, Hf. simpl.
    rewrite Nat.add_0_r, !append_assoc. do 13 f_equal.
    apply imap_ext. intros i x _. simpl. f_equal. lia.
Qed.

(** X13. [prepare_prompt] fails on the first article, in list order, that
    lacks a key: with [KeyError] on 'title' when the title is missing
    (whether or not the text is there), with [KeyError] on 'full_text' when
    only the text is missing. Articles after it are not looked at. *)
Theorem prepare_prompt_missing_key (good rest : list Article) (bad : Article) :
  Forall extracted good ->
  (bad !! "title" = None ->
     prepare_prompt (good ++ bad :: rest) = Raise (KeyError "title"))
  /\ (is_Some (bad !! "title") -> bad !! "full_text" = None ->
      prepare_prompt (good ++ bad :: rest) = Raise (KeyError "full_text")).
Proof.
  intros Hgood. unfold prepare_prompt.
  rewrite (prepare_prompt_loop_app good (bad :: rest) 0) by done.
  cbn [prepare_prompt_loop]. unfold getitem. split.
  - by intros ->.
  - intros [title ->] ->. done.
Qed.

Lemma prepare_prompt_missing_key_witness :
  prepare_prompt
    [<["full_text" := PyStr "Shares fell."]> (Samples.result "A" "u1");
     Samples.result "B" "u2"; ∅]
  = Raise (KeyError "full_text").
Proof.
  apply (prepare_prompt_missing_key
           [<["full_text" := PyStr "Shares fell."]> (Samples.result "A" "u1")]
           [∅] (Samples.result "B" "u2")); [|by eexists|done].
  repeat constructor; by eexists.
Defined.

Lemma prepare_prompt_loop_extracted (articles : list Article) (idx : nat)
    (prompt result : string) :
  prepare_prompt_loop idx articles prompt = Return result ->
  Forall extracted articles.
Proof.
  revert idx prompt. induction articles as [|a l IH]; intros idx prompt;
    [done|].
  cbn [prepare_prompt_loop]. unfold getitem.
  destruct (a !! "title") as [title|] eqn:Ht; [|done].
  destruct (a !! "full_text") as [text|] eqn:Hf; [|done].
  simpl. intros Hrun%IH. apply Forall_cons. split; [|done].
  split; by eexists.
Qed.

(** X14. [prepare_prompt] returns a prompt exactly for the lists in which
    every article has both a title and a full text; the empty list is one of
    them. *)
Theorem prepare_prompt_returns_iff (articles : list Article) :
  (exists prompt, prepare_prompt articles = Return prompt)
  <-> Forall extracted articles.
Proof.
  split; [|apply prepare_prompt_returns].
  intros [prompt Hrun]. unfold prepare_prompt in Hrun.
  destruct (prepare_prompt_loop 1 articles _) as [p| |] eqn:Hloop; [|done..].
  by apply prepare_prompt_loop_extracted in Hloop.
Qed.

(** ** The prompt does not delimit its fields *)

Lemma prepare_prompt_loop_prefix (before l1 l2 : list Article) :
  (forall idx prompt,
     prepare_prompt_loop idx l1 prompt = prepare_prompt_loop idx l2 prompt) ->
  forall idx prompt,
    prepare_prompt_loop idx (before ++ l1) prompt
    = prepare_prompt_loop idx (before ++ l2) prompt.
Proof.
  intros Heq. induction before as [|a l IH]; intros idx prompt; [apply Heq|].
  change ((a :: l) ++ l1) with (a :: l ++ l1).
  change ((a :: l) ++ l2) with (a :: l ++ l2).
  cbn [prepare_prompt_loop].
  destruct (getitem a "title") as [title| |]; [|done..]. simpl obind.
  destruct (getitem a "full_text") as [text| |]; [|done..]. simpl obind.
  apply IH.
Qed.

(** X15. Titles and texts are pasted into the prompt as they are, with
    nothing to mark where one ends: anywhere in a list, an article whose title
    is "t\nContent: x" and whose text is y gives the same prompt as an article
    whose title is t and whose text is "x\nContent: y". So the prompt does not
    determine the articles it was built from. *)
Theorem prepare_prompt_not_delimited (before after : list Article)
    (a1 a2 : Article) (t x y : string) :
  a1 !! "title" = Some (PyStr (t +:+ LF +:+ "Content: " +:+ x)) ->
  a1 !! "full_text" = Some (PyStr y) ->
  a2 !! "title" = Some (PyStr t) ->
  a2 !! "full_text" = Some (PyStr (x +:+ LF +:+ "Content: " +:+ y)) ->
  prepare_prompt (before ++ a1 :: after) = prepare_prompt (before ++ a2 :: after).
Proof.
  intros Ht1 Hf1 Ht2 Hf2. unfold prepare_prompt.
  rewrite !length_app. simpl length. f_equal.
  apply prepare_prompt_loop_prefix. intros idx prompt.
  cbn [prepare_prompt_loop]. unfold getitem. rewrite Ht1, Hf1, Ht2, Hf2.
  simpl. by rewrite !append_assoc.
Qed.

Lemma prepare_prompt_not_delimited_witness :
  prepare_prompt
    [<["full_text" := PyStr "up 5%"]>
       (<["title" := PyStr ("Acme" +:+ LF +:+ "Content: Shares are")]> ∅)]
  = prepare_prompt
      [<["full_text" := PyStr ("Shares are" +:+ LF +:+ "Content: up 5%")]>
         (<["title" := PyStr "Acme"]> ∅)].
Proof.
  apply (prepare_prompt_not_delimited [] [] _ _ "Acme" "Shares are" "up 5%");
    reflexivity.
Defined.

(** ** How far the loop goes *)

Lemma successes_le_length (os : list (option string)) :
  successes os <= length os.
Proof. induction os as [|[t|] os IH]; simpl; lia. Qed.

(** X16. Over candidates that have a link, the loop always tries the first
    five candidates, or all of them when there are fewer: it never stops
    earlier. It returns no more articles than it fetched pages, and it reads
    nothing from standard input. *)
Theorem extraction_loop_tries_first_five (env : Env) (articles : list Article)
    (s : State) :
  Forall (fun a : Article => is_Some (a !! "link")) articles ->
  exists k successful s',
    extraction_loop env 1 articles [] s = (Return successful, s')
    /\ net s' = net s ++ map fetch_of (take k articles)
    /\ Nat.min 5 (length articles) <= k <= length articles
    /\ length successful <= k
    /\ stdin s' = stdin s.
Proof.
  intros Hlinks.
  destruct (extraction_loop_run env articles 1 [] s Hlinks)
    as (s' & Hrun & Hnet & Hin).
  simpl in Hrun, Hnet. change (5 - 0) with 5 in Hrun, Hnet.
  set (os := attempts env (net s) articles) in *.
  pose proof (length_attempts env (net s) articles) as Hlen. fold os in Hlen.
  pose proof (examined_le 5 os) as Hle.
  pose proof (examined_ge 5 os) as Hge.
  eexists (examined 5 os), _, s'. split; [exact Hrun|].
  split; [exact Hnet|]. split; [lia|]. split; [|exact Hin].
  rewrite length_kept by (rewrite !length_take; lia).
  pose proof (successes_le_length (take (examined 5 os) os)) as Hs.
  rewrite length_take in Hs. lia.
Qed.

Lemma extraction_loop_tries_first_five_witness :
  exists k successful s',
    extraction_loop MoreSamples.dead_links 1
      (map article_info Samples.seven_results) [] (Samples.console [])
    = (Return successful, s')
    /\ 5 <= k
    /\ length successful <= k.
Proof.
  destruct (extraction_loop_tries_first_five MoreSamples.dead_links
              (map article_info Samples.seven_results) (Samples.console []))
    as (k & successful & s' & Hrun & _ & [Hmin _] & Hlen & _).
  - repeat constructor; by eexists.
  - exists k, successful, s'.
    split; [exact Hrun|]. split; [exact Hmin|exact Hlen].
Defined.

(** ** What the extractor and the LLM client hand back *)

(** X17. The text [extract_article_text] returns is never empty: on success
    it is the page text without the whitespace at its ends, so it neither
    starts nor ends with whitespace; otherwise it is the placeholder. A line
    is printed only when the fetch raised (an empty page is reported by the
    caller alone), and standard input is not read. *)
Theorem extract_article_text_text (env : Env) (url : PyVal) (s s' : State)
    (ok : bool) (text : string) :
  extract_article_text env url s = (Return (ok, text), s') ->
  text <> ""
  /\ (ok = true -> trimmed text)
  /\ (ok = false -> text = "Content could not be retrieved.")
  /\ stdin s' = stdin s
  /\ (stdout s' = stdout s
      \/ exists e, newspaper env (net s) url = FetchRaised e
                   /\ stdout s'
                      = stdout s ++ ["Failed to extract text from "
                                     +:+ py_str url +:+ ": " +:+ exn_str e
                                     +:+ LF]).
Proof.
  unfold extract_article_text, Article_text. run.
  destruct (newspaper env (net s) url) as [e|raw] eqn:Hpage; simpl.
  - intros [= <- <- <-]. simpl.
    split; [done|]. split; [done|]. split; [done|]. split; [done|].
    right. exists e. split; [done|]. by rewrite !append_assoc.
  - destruct (truthy (strip raw)) eqn:Htext; simpl; intros [= <- <- <-]; simpl.
    + apply truthy_true in Htext.
      split; [done|]. split; [|split; [done|split; [done|by left]]].
      intros _. by apply strip_trimmed.
    + split; [done|]. split; [done|]. split; [done|]. split; [done|]. by left.
Qed.

Lemma extract_article_text_text_witness :
  exists text s',
    extract_article_text MoreSamples.one_page (PyStr "u1") (Samples.console [])
    = (Return (true, text), s')
    /\ trimmed text.
Proof.
  eexists _, _. split; [reflexivity|].
  apply (extract_article_text_text MoreSamples.one_page (PyStr "u1")
           (Samples.console []) _ true _ eq_refl); reflexivity.
Defined.

(** X18. The reply [send_to_gpt] returns is the content of the first choice
    without the whitespace at its ends, and it is not checked further: a
    content of whitespace only (or empty) comes back as the empty string, as a
    success; any other content comes back starting and ending with a
    non-whitespace character. Nothing is printed on the way. *)
Theorem send_to_gpt_reply (env : Env) (prompt : string) (openai_api_key : PyVal)
    (s s' : State) (reply : string) :
  send_to_gpt env prompt openai_api_key s = (Return reply, s') ->
  exists choice others raw,
    chat_completion env (net s) (chat_request prompt openai_api_key)
    = ChatResponse (choice :: others)
    /\ message_content choice = PyStr raw
    /\ reply = strip raw
    /\ (all_space raw = true -> reply = "")
    /\ (all_space raw = false -> trimmed reply)
    /\ stdout s' = stdout s /\ stdin s' = stdin s.
Proof.
  unfold send_to_gpt, ChatCompletion_create.
  fold (chat_request prompt openai_api_key).
  destruct (openai_ChatCompletion env); run; [|done].
  destruct (chat_completion env (net s) (chat_request prompt openai_api_key))
    as [e|[|choice others]] eqn:Hc; simpl.
  - by destruct e.
  - done.
  - destruct (message_content choice) as [|raw] eqn:Hm; simpl; [done|].
    intros [= <- <-]. exists choice, others, raw. simpl.
    split; [done|]. split; [done|]. split; [done|]. split; [|split; [|done]].
    + by intros Hall%strip_empty.
    + intros Hall. apply strip_trimmed. intros Hempty%strip_empty. congruence.
Qed.

Lemma send_to_gpt_reply_witness :
  exists choice others raw,
    chat_completion MoreSamples.one_page [] (chat_request "prompt" (PyStr "sk"))
    = ChatResponse (choice :: others)
    /\ message_content choice = PyStr raw
    /\ "The price moved on earnings." = strip raw
    /\ (all_space raw = false -> trimmed "The price moved on earnings.").
Proof.
  destruct (send_to_gpt_reply MoreSamples.one_page "prompt" (PyStr "sk")
              (Samples.console []) _ "The price moved on earnings." eq_refl)
    as (choice & others & raw & Hchat & Hmsg & Hreply & _ & Htrim & _).
  by exists choice, others, raw.
Defined.
